(** * Push-notification relay and client notification manager

    A shallow embedding of

    - [backend/src/routes/notifications.ts]: the handler of the Fastify
      route [POST /api/notifications/send], which relays a broadcast to the
      OneSignal REST API, and
    - the [NotificationProvider] component (the notification context, second
      half of [app/notification-preferences.tsx], lines 302-497): the React
      context that wraps the on-device OneSignal SDK.

    Both pieces are effectful.  They are written here in a small
    state-and-exception monad; everything outside the program (the provider's
    HTTP answer, the process environment, the native SDK) is an explicit
    parameter the theorems quantify over.  Line numbers refer to the two
    source files.

    Around them, in the same style: the API client ([utils/api.ts]), the
    send button that calls it ([SendNotificationButton]) and the two
    handlers of the preferences screen (first half of
    [app/notification-preferences.tsx]). *)

From stdpp Require Import base strings list gmap pretty.
From Stdlib Require Import ZArith.

#[local] Open Scope Z_scope.
#[local] Open Scope string_scope.
#[local] Set Warnings "-register-all".

(** ** JavaScript values, exceptions and completions *)

Module Js.

(** The JSON-shaped fragment of JavaScript values the two components
    handle.  Numbers are integers: neither component computes with them.
    Object members are kept in source order. *)
Inductive value : Type :=
| VUndefined
| VNull
| VBool (b : bool)
| VNum (n : Z)
| VStr (s : string)
| VArr (elements : list value)
| VObj (members : list (string * value)).

(** ToBoolean: what [!v] and [if (v)] test. *)
Definition truthy (v : value) : bool :=
  match v with
  | VUndefined | VNull => false
  | VBool b => b
  | VNum n => negb (Z.eqb n 0)
  | VStr s => negb (String.eqb s "")
  | VArr _ | VObj _ => true
  end.

Fixpoint assoc (k : string) (members : list (string * value)) : option value :=
  match members with
  | [] => None
  | (k', v) :: rest => if String.eqb k k' then Some v else assoc k rest
  end.

(** What a [throw] carries: an [Error] instance (with its [name] and
    [message]) or any other value. *)
Inductive thrown : Type :=
| ErrorObject (name message : string)
| Thrown (v : value).

(** How an exception shows in a structured log field. *)
Definition value_of_thrown (e : thrown) : value :=
  match e with
  | ErrorObject name message =>
      VObj [("type", VStr name); ("message", VStr message)]
  | Thrown v => v
  end.

(** The outcome of evaluating an expression, or of awaiting a promise:
    a value, or an exception (a rejection). *)
Inductive completion (A : Type) : Type :=
| Normal (a : A)
| Throw (e : thrown).
Arguments Normal {A} a.
Arguments Throw {A} e.

(** Member access [v.k].  Reading a member of [undefined] or [null] is a
    [TypeError]; a member an object does not have reads as [undefined].
    (Only used with names that no primitive or array defines.) *)
Definition get (v : value) (k : string) : completion value :=
  match v with
  | VUndefined =>
      Throw (ErrorObject "TypeError"
               ("Cannot read properties of undefined (reading '" ++ k ++ "')"))
  | VNull =>
      Throw (ErrorObject "TypeError"
               ("Cannot read properties of null (reading '" ++ k ++ "')"))
  | VObj members => Normal (default VUndefined (assoc k members))
  | VBool _ | VNum _ | VStr _ | VArr _ => Normal VUndefined
  end.

(** What a serialiser ([JSON.stringify], Fastify's reply serialiser) puts
    on the wire for an object: members whose value is [undefined] are
    left out. *)
Definition is_undefined (v : value) : bool :=
  match v with VUndefined => true | _ => false end.

Definition serialized_members (members : list (string * value))
  : list (string * value) :=
  List.filter (fun kv => negb (is_undefined (snd kv))) members.

(** *** The monad: a store [St] threaded through, and exceptions *)

Definition M (St A : Type) : Type := St -> completion A * St.

Definition ret {St A} (a : A) : M St A := fun s => (Normal a, s).

Definition bind {St A B} (m : M St A) (k : A -> M St B) : M St B :=
  fun s =>
    match m s with
    | (Normal a, s') => k a s'
    | (Throw e, s') => (Throw e, s')
    end.

(** A completion obtained from outside (an awaited promise, a native
    call), continued in the monad. *)
Definition lift {St A} (c : completion A) : M St A := fun s => (c, s).

Definition modify {St} (f : St -> St) : M St unit := fun s => (Normal tt, f s).

(** [try { body } catch (error) { handler error }]: effects of [body] up to
    the throw are kept. *)
Definition try_catch {St A} (body : M St A) (handler : thrown -> M St A)
  : M St A :=
  fun s =>
    match body s with
    | (Normal a, s') => (Normal a, s')
    | (Throw e, s') => handler e s'
    end.

(** [try { body } finally { cleanup }]: [cleanup] runs on both exits; the
    completion of [body] stands unless [cleanup] itself throws. *)
Definition try_finally {St A} (body : M St A) (cleanup : M St unit)
  : M St A :=
  fun s =>
    match body s with
    | (c, s') =>
        match cleanup s' with
        | (Normal _, s'') => (c, s'')
        | (Throw e, s'') => (Throw e, s'')
        end
    end.

#[global] Instance M_ret {St} : MRet (M St) := @ret St.
#[global] Instance M_bind {St} : MBind (M St) := fun A B k m => bind m k.

(** Whether a run ended without an exception. *)
Definition returns {A St} (r : completion A * St) : Prop :=
  match r.1 with
  | Normal _ => True
  | Throw _ => False
  end.

End Js.

Import Js.

(** ** The relay: [backend/src/routes/notifications.ts] *)

Module Notifications.

(** [interface SendNotificationBody]: the two members of [request.body]
    the handler destructures.  (The route's schema, modelled with [route]
    below, lets through only bodies in which both are strings; the handler
    itself tests them for truthiness.) *)
Record SendNotificationBody : Type := {
  title : value;
  message : value;
}.

(** [interface SendNotificationResponse], as the object literal handed to
    [reply.send]. *)
Definition SendNotificationResponse := value.

(** *** The world outside the handler *)

(** The second argument of [fetch]. *)
Record RequestInit : Type := {
  method : string;
  headers : list (string * string);
  body : value;  (* the text [JSON.stringify(v)], kept as the [v] it encodes *)
}.

(** What the handler reads of a fetch [Response]: the status line, and the
    outcome of awaiting [text()] and [json()]. *)
Record Response : Type := {
  status : Z;
  statusText : string;
  text : completion string;
  json : completion value;
}.

(** [response.ok]: the status is in the range 200-299. *)
Definition ok (r : Response) : bool :=
  Z.leb 200 (status r) && Z.leb (status r) 299.

Record World : Type := {
  process_env : gmap string string;
  fetch : string -> RequestInit -> completion Response;
}.

(** *** What the handler does to its surroundings *)

Inductive level : Type := info | warn | debug | error.

(** One [app.logger.<level>(fields, msg)] call. *)
Record LogLine : Type := {
  log_level : level;
  log_fields : list (string * value);
  log_msg : string;
}.

(** The [reply] object: the status code (200 until set) and what was
    sent. *)
Record Reply : Type := {
  statusCode : Z;
  sent : option SendNotificationResponse;
}.

Record State : Type := {
  logged : list LogLine;
  outbound : list (string * RequestInit);
  reply : Reply;
}.

Definition initial : State :=
  {| logged := []; outbound := []; reply := {| statusCode := 200; sent := None |} |}.

Definition app_logger (l : level) (fields : list (string * value)) (msg : string)
  : M State unit :=
  modify (fun s =>
    {| logged := logged s ++ [ {| log_level := l; log_fields := fields; log_msg := msg |} ];
       outbound := outbound s;
       reply := reply s |}).

Definition reply_status (code : Z) : M State unit :=
  modify (fun s =>
    {| logged := logged s;
       outbound := outbound s;
       reply := {| statusCode := code; sent := sent (reply s) |} |}).

Definition reply_send (payload : SendNotificationResponse) : M State unit :=
  modify (fun s =>
    {| logged := logged s;
       outbound := outbound s;
       reply := {| statusCode := statusCode (reply s); sent := Some payload |} |}).

(** [await fetch(url, init)]: the call is issued, then the world answers. *)
Definition await_fetch (w : World) (url : string) (init : RequestInit)
  : M State Response :=
  modify (fun s =>
    {| logged := logged s;
       outbound := outbound s ++ [(url, init)];
       reply := reply s |});;
  lift (fetch w url init).

(** *** The handler *)

Definition appId : string := "84bd5859-82bd-44dd-8a2e-c7e1ccca59f9".

Definition payload (title message : value) : value :=
  VObj [ ("app_id", VStr appId);
         ("included_segments", VArr [VStr "All"]);
         ("headings", VObj [("en", title)]);
         ("contents", VObj [("en", message)]) ].

Definition provider_url : string := "https://onesignal.com/api/v1/notifications".

Definition provider_init (restApiKey : string) (title message : value)
  : RequestInit :=
  {| method := "POST";
     headers := [ ("Content-Type", "application/json; charset=utf-8");
                  ("Authorization", "Basic " ++ restApiKey) ];
     body := payload title message |}.

(** The key as a condition: [!restApiKey] holds for an unset variable and
    for one set to the empty string. *)
Definition usable_key (restApiKey : option string) : option string :=
  match restApiKey with
  | Some k => if String.eqb k "" then None else Some k
  | None => None
  end.

(** The body of the [try] block (lines 60-122). *)
Definition try_block (w : World) (title message : value) : M State unit :=
  if negb (truthy title) || negb (truthy message) then
    app_logger warn [("title", title); ("message", message)]
      "Missing required fields in notification request";;
    reply_status 400;;
    reply_send (VObj [ ("success", VBool false);
                       ("error", VStr "Missing required fields: title and message") ])
  else
    let restApiKey := process_env w !! "ONESIGNAL_REST_API_KEY" in
    match usable_key restApiKey with
    | None =>
        app_logger error [] "OneSignal REST API key not configured";;
        reply_status 500;;
        reply_send (VObj [ ("success", VBool false);
                           ("error", VStr "OneSignal not configured") ])
    | Some restApiKey =>
        app_logger debug [("payload", payload title message)]
          "OneSignal payload prepared";;
        response ← await_fetch w provider_url (provider_init restApiKey title message);
        if negb (ok response) then
          errorData ← lift (text response);
          app_logger error
            [ ("status", VNum (status response)); ("errorData", VStr errorData);
              ("title", title); ("message", message) ]
            "OneSignal API returned error";;
          reply_status 500;;
          reply_send (VObj [ ("success", VBool false);
                             ("error", VStr ("OneSignal API error: " ++ statusText response)) ])
        else
          responseData ← lift (json response);
          notificationId ← lift (get responseData "id");
          app_logger info
            [ ("notificationId", notificationId); ("title", title); ("message", message) ]
            "Notification sent successfully";;
          reply_send (VObj [ ("success", VBool true);
                             ("notificationId", notificationId) ])
    end.

(** [error instanceof Error ? error.message : 'Unknown error occurred'] *)
Definition error_text (e : thrown) : string :=
  match e with
  | ErrorObject _ message => message
  | Thrown _ => "Unknown error occurred"
  end.

(** The [catch] block (lines 123-129). *)
Definition catch_block (title message : value) (e : thrown) : M State unit :=
  app_logger error
    [ ("err", value_of_thrown e); ("title", title); ("message", message) ]
    "Failed to send notification";;
  reply_status 500;;
  reply_send (VObj [ ("success", VBool false); ("error", VStr (error_text e)) ]).

(** The route handler (lines 55-130). *)
Definition handler (w : World) (request_body : SendNotificationBody)
  : M State unit :=
  let title := title request_body in
  let message := message request_body in
  app_logger info [("title", title); ("message", message)]
    "Sending push notification via OneSignal";;
  try_catch (try_block w title message) (catch_block title message).

(** The state in which the [try] block is entered: a fresh [reply], and
    the receipt of the request logged (line 58). *)
Definition at_try (request_body : SendNotificationBody) : State :=
  (app_logger info
     [("title", title request_body); ("message", message request_body)]
     "Sending push notification via OneSignal" initial).2.

(** One request, served from a fresh [reply]. *)
Definition serve (w : World) (request_body : SendNotificationBody)
  : completion unit * State :=
  handler w request_body initial.

(** The same world, except that the body of every provider response
    reads as [raw] and parses as [parsed]. *)
Definition with_body (raw : string) (parsed : completion value) (w : World)
  : World :=
  {| process_env := process_env w;
     fetch := fun url init =>
       match fetch w url init with
       | Normal r =>
           Normal {| status := status r; statusText := statusText r;
                     text := Normal raw; json := parsed |}
       | Throw e => Throw e
       end |}.

(** The response as the caller receives it. *)
Definition http_response (r : completion unit * State)
  : Z * option (list (string * value)) :=
  (statusCode (reply r.2),
   match sent (reply r.2) with
   | Some (VObj members) => Some (serialized_members members)
   | _ => None
   end).

(** *** The route, as registered (lines 16-54) *)





End Notifications.

(** ** The client manager: [NotificationProvider] *)

Module NotificationContext.

(** *** Static configuration, read once at module load *)

Record Config : Type := {
  Platform_OS : string;
  (* [Constants.expoConfig?.extra], when there is one *)
  expoConfig_extra : option (gmap string string);
  DEV : bool;
}.

(** [const extra = Constants.expoConfig?.extra || {}] *)
Definition extra (cfg : Config) : gmap string string :=
  default ∅ (expoConfig_extra cfg).

(** [const ONESIGNAL_APP_ID = extra.oneSignalAppId || ""] *)
Definition ONESIGNAL_APP_ID (cfg : Config) : string :=
  default "" (extra cfg !! "oneSignalAppId").

(** [const isWeb = Platform.OS === "web"] *)
Definition isWeb (cfg : Config) : bool := String.eqb (Platform_OS cfg) "web".

(** *** The native SDK *)

(** What the provider reads of an [OSNotification]. *)
Record Notification : Type := {
  title : value;
  body : value;
  additionalData : value;
}.

(** The calls the provider can make on the [OneSignal] object. *)
Inductive SdkCall : Type :=
| initialize (appId : string)
| Notifications_hasPermission
| Notifications_addEventListener (event : string)
| Notifications_requestPermission (fallbackToSettings : bool)
| User_addTag (key value : string)
| User_removeTag (key : string)
| Notification_display (n : Notification).

(** The SDK's answers.  Each may depend on every call made before it, and
    each may be an exception. *)
Record SDK : Type := {
  answer_unit : list SdkCall -> SdkCall -> completion unit;
  answer_bool : list SdkCall -> SdkCall -> completion bool;
}.

(** *** The provider's state and what it does to its surroundings *)

Inductive stream : Type := log | warn | error.

Record ConsoleLine : Type := {
  console_stream : stream;
  console_args : list value;
}.

Record State : Type := {
  (* the four [useState] cells *)
  hasPermission : bool;
  permissionDenied : bool;
  loading : bool;
  lastNotification : option Notification;
  (* the surroundings *)
  sdk_calls : list SdkCall;
  listeners : list string;  (* the events a listener is registered for *)
  console : list ConsoleLine;
}.

(** The state at mount: the initial values given to [useState]. *)
Definition mounted : State :=
  {| hasPermission := false; permissionDenied := false; loading := true;
     lastNotification := None; sdk_calls := []; listeners := [];
     console := [] |}.

Definition setHasPermission (b : bool) : M State unit :=
  modify (fun s =>
    {| hasPermission := b; permissionDenied := permissionDenied s;
       loading := loading s; lastNotification := lastNotification s;
       sdk_calls := sdk_calls s; listeners := listeners s;
       console := console s |}).

Definition setPermissionDenied (b : bool) : M State unit :=
  modify (fun s =>
    {| hasPermission := hasPermission s; permissionDenied := b;
       loading := loading s; lastNotification := lastNotification s;
       sdk_calls := sdk_calls s; listeners := listeners s;
       console := console s |}).

Definition setLoading (b : bool) : M State unit :=
  modify (fun s =>
    {| hasPermission := hasPermission s; permissionDenied := permissionDenied s;
       loading := b; lastNotification := lastNotification s;
       sdk_calls := sdk_calls s; listeners := listeners s;
       console := console s |}).

Definition setLastNotification (n : option Notification) : M State unit :=
  modify (fun s =>
    {| hasPermission := hasPermission s; permissionDenied := permissionDenied s;
       loading := loading s; lastNotification := n;
       sdk_calls := sdk_calls s; listeners := listeners s;
       console := console s |}).

Definition console_write (st : stream) (args : list value) : M State unit :=
  modify (fun s =>
    {| hasPermission := hasPermission s; permissionDenied := permissionDenied s;
       loading := loading s; lastNotification := lastNotification s;
       sdk_calls := sdk_calls s; listeners := listeners s;
       console := console s ++ [ {| console_stream := st; console_args := args |} ] |}).

(** One call into the SDK: it is recorded, and the SDK answers. *)
Definition native {A} (answer : list SdkCall -> SdkCall -> completion A)
    (c : SdkCall) : M State A :=
  fun s =>
    (answer (sdk_calls s) c,
     {| hasPermission := hasPermission s; permissionDenied := permissionDenied s;
        loading := loading s; lastNotification := lastNotification s;
        sdk_calls := sdk_calls s ++ [c]; listeners := listeners s;
        console := console s |}).

(** [OneSignal.Notifications.addEventListener(event, listener)]: when the
    call returns, the listener is registered. *)
Definition addEventListener (answer : list SdkCall -> SdkCall -> completion unit)
    (event : string) : M State unit :=
  native answer (Notifications_addEventListener event);;
  modify (fun s =>
    {| hasPermission := hasPermission s; permissionDenied := permissionDenied s;
       loading := loading s; lastNotification := lastNotification s;
       sdk_calls := sdk_calls s; listeners := listeners s ++ [event];
       console := console s |}).

Section Provider.

Variable cfg : Config.
Variable sdk : SDK.

(** *** The two event listeners *)

(** The ["foregroundWillDisplay"] listener (lines 401-411). *)
Definition on_foregroundWillDisplay (notification : Notification)
  : M State unit :=
  native (answer_unit sdk) (Notification_display notification);;
  setLastNotification (Some notification).

(** The ["permissionChange"] listener (lines 417-420).  The two setters
    called in one handler belong to one update of the component: the state
    is observed before and after the handler, not between them. *)
Definition on_permissionChange (granted : bool) : M State unit :=
  setHasPermission granted;;
  setPermissionDenied (negb granted).

(** *** The mount effect (lines 371-427) *)

Definition initialize_try_block : M State unit :=
  native (answer_unit sdk) (initialize (ONESIGNAL_APP_ID cfg));;
  (if DEV cfg then
     console_write log
       [ VStr "[OneSignal] Initialized with App ID:";
         VStr (String.substring 0 8 (ONESIGNAL_APP_ID cfg) ++ "...") ]
   else mret tt);;
  permissionStatus ← native (answer_bool sdk) Notifications_hasPermission;
  setHasPermission permissionStatus;;
  addEventListener (answer_unit sdk) "foregroundWillDisplay";;
  addEventListener (answer_unit sdk) "permissionChange".

Definition mount_effect : M State unit :=
  if isWeb cfg then setLoading false
  else if String.eqb (ONESIGNAL_APP_ID cfg) "" then
    console_write warn
      [ VStr ("[OneSignal] App ID not provided. " ++
              "Please add oneSignalAppId to app.json extra.") ];;
    setLoading false
  else
    try_finally
      (try_catch initialize_try_block
         (fun e =>
            console_write error
              [ VStr "[OneSignal] Failed to initialize:"; value_of_thrown e ]))
      (setLoading false).

(** *** The three operations *)

(** [requestPermission] (lines 429-441).  The awaited SDK call and what
    follows it are run as one step. *)
Definition requestPermission : M State bool :=
  if isWeb cfg then mret false
  else
    try_catch
      (granted ← native (answer_bool sdk) (Notifications_requestPermission true);
       setHasPermission granted;;
       setPermissionDenied (negb granted);;
       mret granted)
      (fun e =>
         console_write error
           [ VStr "[OneSignal] Permission request failed:"; value_of_thrown e ];;
         mret false).

(** [sendTag] (lines 443-450). *)
Definition sendTag (key value : string) : M State unit :=
  if isWeb cfg then mret tt
  else
    try_catch (native (answer_unit sdk) (User_addTag key value))
      (fun e =>
         console_write error
           [ VStr "[OneSignal] Failed to send tag:"; value_of_thrown e ]).

(** [deleteTag] (lines 452-459). *)
Definition deleteTag (key : string) : M State unit :=
  if isWeb cfg then mret tt
  else
    try_catch (native (answer_unit sdk) (User_removeTag key))
      (fun e =>
         console_write error
           [ VStr "[OneSignal] Failed to delete tag:"; value_of_thrown e ]).

(** *** Life of a mounted provider *)

(** Whether a listener is registered for [event]. *)
Definition listening (event : string) (s : State) : bool :=
  bool_decide (event ∈ listeners s).

(** What can happen after the mount effect: the application calls one
    of the three operations, or the SDK fires an event. *)
Inductive action : Type :=
| CallRequestPermission
| CallSendTag (key value : string)
| CallDeleteTag (key : string)
| FirePermissionChange (granted : bool)
| FireForegroundWillDisplay (notification : Notification).

(** One action, run to completion.  An event reaches the provider only
    through a listener it registered. *)
Definition step (s : State) (a : action) : State :=
  match a with
  | CallRequestPermission => (requestPermission s).2
  | CallSendTag k v => (sendTag k v s).2
  | CallDeleteTag k => (deleteTag k s).2
  | FirePermissionChange granted =>
      if listening "permissionChange" s then (on_permissionChange granted s).2
      else s
  | FireForegroundWillDisplay n =>
      if listening "foregroundWillDisplay" s then (on_foregroundWillDisplay n s).2
      else s
  end.

(** The state after the mount effect and then the given actions. *)
Definition run (actions : list action) : State :=
  foldl step (mount_effect mounted).2 actions.

(** The states a mounted provider can be in: the state given to the
    first render, and every state from the mount effect on. *)
Definition reachable (s : State) : Prop :=
  s = mounted \/ exists actions, s = run actions.

End Provider.

(** Granted and denied exclude each other. *)
Definition consistent (s : State) : Prop :=
  hasPermission s && permissionDenied s = false.

End NotificationContext.

(** ** Sample worlds *)

Module Samples.

Import Notifications.

Definition request_hello : SendNotificationBody :=
  {| title := VStr "Hello"; message := VStr "World" |}.

Definition env_with_key : gmap string string :=
  {[ "ONESIGNAL_REST_API_KEY" := "s3cr3t" ]}.

(** The provider accepts the notification and names it. *)
Definition provider_accepts : World :=
  {| process_env := env_with_key;
     fetch := fun _ _ =>
       Normal {| status := 200; statusText := "OK";
                 text := Normal "{id:abc123}";
                 json := Normal (VObj [("id", VStr "abc123")]) |} |}.

(** The provider turns the notification down. *)
Definition provider_refuses : World :=
  {| process_env := env_with_key;
     fetch := fun _ _ =>
       Normal {| status := 400; statusText := "Bad Request";
                 text := Normal "{errors:[app_id not found]}";
                 json := Normal (VObj [("errors", VArr [VStr "app_id not found"])]) |} |}.

(** The provider cannot be reached. *)
Definition network_down : World :=
  {| process_env := env_with_key;
     fetch := fun _ _ => Throw (ErrorObject "TypeError" "fetch failed") |}.

(** The provider accepts the notification and answers without an id. *)
Definition provider_accepts_unnamed : World :=
  {| process_env := env_with_key;
     fetch := fun _ _ =>
       Normal {| status := 200; statusText := "OK";
                 text := Normal "{}";
                 json := Normal (VObj []) |} |}.

(** The provider answers 200 with a body that is not JSON. *)
Definition provider_garbled : World :=
  {| process_env := env_with_key;
     fetch := fun _ _ =>
       Normal {| status := 200; statusText := "OK";
                 text := Normal "<html>";
                 json := Throw (ErrorObject "SyntaxError"
                                  "Unexpected token < in JSON at position 0") |} |}.

(** No key in the environment. *)
Definition unconfigured : World :=
  {| process_env := ∅;
     fetch := fun _ _ => Throw (ErrorObject "TypeError" "fetch failed") |}.

End Samples.

Module ClientSamples.

Import NotificationContext.

Definition ios_app : Config :=
  {| Platform_OS := "ios";
     expoConfig_extra :=
       Some {[ "oneSignalAppId" := "84bd5859-82bd-44dd-8a2e-c7e1ccca59f9" ]};
     DEV := true |}.

(** A native build whose [app.json] has no [oneSignalAppId]. *)
Definition ios_without_app_id : Config :=
  {| Platform_OS := "ios"; expoConfig_extra := Some ∅; DEV := false |}.

Definition web_app : Config :=
  {| Platform_OS := "web";
     expoConfig_extra :=
       Some {[ "oneSignalAppId" := "84bd5859-82bd-44dd-8a2e-c7e1ccca59f9" ]};
     DEV := false |}.

(** An SDK that works, with a user who grants the permission. *)
Definition sdk_granting : SDK :=
  {| answer_unit := fun _ _ => Normal tt;
     answer_bool := fun _ _ => Normal true |}.

(** An SDK that works, with a user who refuses. *)
Definition sdk_refusing : SDK :=
  {| answer_unit := fun _ _ => Normal tt;
     answer_bool := fun _ _ => Normal false |}.

(** An SDK whose every call fails. *)
Definition sdk_broken : SDK :=
  {| answer_unit := fun _ _ => Throw (ErrorObject "Error" "native module missing");
     answer_bool := fun _ _ => Throw (ErrorObject "Error" "native module missing") |}.

End ClientSamples.

(** ** More of JavaScript: conversion to text *)

Module JsText.

(** [throw e] *)
Definition throw {St A} (e : thrown) : M St A := fun s => (Throw e, s).

(** ToString, as template literals and [new Error(v)] apply it.  Integers
    print in decimal, as JavaScript prints them below 10^21; an array prints
    its elements separated by commas, [null] and [undefined] as nothing. *)
Fixpoint to_string (v : value) : string :=
  match v with
  | VUndefined => "undefined"
  | VNull => "null"
  | VBool b => if b then "true" else "false"
  | VNum n => pretty n
  | VStr s => s
  | VArr elements =>
      (fix join (l : list value) : string :=
         match l with
         | [] => ""
         | x :: rest =>
             let shown :=
               match x with
               | VUndefined | VNull => ""
               | _ => to_string x
               end in
             match rest with
             | [] => shown
             | _ :: _ => shown ++ "," ++ join rest
             end
         end) elements
  | VObj _ => "[object Object]"
  end.

(** The line feed of ["\n"]. *)
Definition LF : string := String (Ascii.ascii_of_nat 10) "".

End JsText.

Import JsText.

(** ** The API client: [utils/api.ts] *)

Module Api.

Import NotificationContext (stream, log, warn, error, ConsoleLine, Build_ConsoleLine,
  console_stream, console_args).

(** [Constants.expoConfig?.extra], when there is one. *)
Record Config : Type := {
  expoConfig_extra : option (gmap string string);
}.

(** [const extra = Constants.expoConfig?.extra || {}] *)
Definition extra (cfg : Config) : gmap string string :=
  default ∅ (expoConfig_extra cfg).

(** [export const BACKEND_URL = extra.backendUrl || ""] *)
Definition BACKEND_URL (cfg : Config) : string :=
  default "" (extra cfg !! "backendUrl").

(** The [options] of [apiCall]: the members of [RequestInit] the helpers
    set, each optional. *)
Record Options : Type := {
  method : option string;
  body : option value;  (* the text [JSON.stringify(v)], kept as the [v] it encodes *)
  headers : option (gmap string string);
}.

(** [{}], the default [options]. *)
Definition no_options : Options :=
  {| method := None; body := None; headers := None |}.

(** What [apiCall] hands to [fetch]: [options] with its headers replaced. *)
Record FetchInit : Type := {
  init_method : option string;
  init_body : option value;
  init_headers : gmap string string;
}.

Record World : Type := {
  fetch : string -> FetchInit -> completion Notifications.Response;
}.

Record State : Type := {
  console : list ConsoleLine;
  requests : list (string * FetchInit);
}.

Definition initial : State := {| console := []; requests := [] |}.

Definition console_write (st : stream) (args : list value) : M State unit :=
  modify (fun s =>
    {| console := console s ++ [ {| console_stream := st; console_args := args |} ];
       requests := requests s |}).

(** [await fetch(url, init)]: the request is issued, then the world answers. *)
Definition await_fetch (w : World) (url : string) (init : FetchInit)
  : M State Notifications.Response :=
  modify (fun s =>
    {| console := console s; requests := requests s ++ [(url, init)] |});;
  lift (fetch w url init).

(** The module's top-level statement (lines 15-19). *)
Definition module_load (cfg : Config) : M State unit :=
  if String.eqb (BACKEND_URL cfg) "" then
    console_write warn
      [ VStr "[API] Backend URL not configured. Please add backendUrl to app.json extra." ]
  else mret tt.

(** [options.method || "GET"] *)
Definition method_or_GET (options : Options) : string :=
  match method options with
  | Some m => if String.eqb m "" then "GET" else m
  | None => "GET"
  end.

(** [{ "Content-Type": "application/json", ...options.headers }] *)
Definition merged_headers (options : Options) : gmap string string :=
  default ∅ (headers options) ∪ {[ "Content-Type" := "application/json" ]}.

(** [apiCall] (lines 24-57). *)
Definition apiCall (cfg : Config) (w : World) (endpoint : string) (options : Options)
  : M State value :=
  let url := BACKEND_URL cfg ++ endpoint in
  console_write log [ VStr ("[API] " ++ method_or_GET options ++ " " ++ url) ];;
  try_catch
    (response ← await_fetch w url
                  {| init_method := method options;
                     init_body := body options;
                     init_headers := merged_headers options |};
     data ← lift (Notifications.json response);
     if negb (Notifications.ok response) then
       console_write error
         [ VStr ("[API] Error " ++ pretty (Notifications.status response) ++ ":"); data ];;
       data_error ← lift (get data "error");
       throw (ErrorObject "Error"
                (if truthy data_error then to_string data_error
                 else "Request failed with status "
                        ++ pretty (Notifications.status response)))
     else
       console_write log [ VStr "[API] Success:"; data ];;
       mret data)
    (fun e =>
       console_write error [ VStr "[API] Request failed:"; value_of_thrown e ];;
       match e with
       | ErrorObject _ _ => throw e
       | Thrown _ => throw (ErrorObject "Error" "Network request failed")
       end).

(** [apiGet] (lines 62-64). *)
Definition apiGet (cfg : Config) (w : World) (endpoint : string) : M State value :=
  apiCall cfg w endpoint {| method := Some "GET"; body := None; headers := None |}.

(** [apiPost] (lines 69-77). *)
Definition apiPost (cfg : Config) (w : World) (endpoint : string) (payload : value)
  : M State value :=
  apiCall cfg w endpoint {| method := Some "POST"; body := Some payload; headers := None |}.

(** [apiPut] (lines 82-90). *)
Definition apiPut (cfg : Config) (w : World) (endpoint : string) (payload : value)
  : M State value :=
  apiCall cfg w endpoint {| method := Some "PUT"; body := Some payload; headers := None |}.

(** [apiDelete] (lines 95-97). *)
Definition apiDelete (cfg : Config) (w : World) (endpoint : string) : M State value :=
  apiCall cfg w endpoint {| method := Some "DELETE"; body := None; headers := None |}.

(** [interface SendNotificationRequest] *)
Record SendNotificationRequest : Type := {
  title : string;
  message : string;
}.

(** The request as the object handed to [apiPost]. *)
Definition request_object (data : SendNotificationRequest) : value :=
  VObj [ ("title", VStr (title data)); ("message", VStr (message data)) ].

(** [sendNotification] (lines 120-124). *)
Definition sendNotification (cfg : Config) (w : World) (data : SendNotificationRequest)
  : M State value :=
  apiPost cfg w "/api/notifications/send" (request_object data).

End Api.

(** ** The send button: [SendNotificationButton] *)

Module SendNotificationButton.

(** ["success" | "error"], the type of the modal. *)
Inductive modal_type : Type := success | error.

Record ModalConfig : Type := {
  title : string;
  message : string;
  type : modal_type;
}.

Record State : Type := {
  (* the three [useState] cells *)
  loading : bool;
  modalVisible : bool;
  modalConfig : ModalConfig;
  (* the surroundings: the console and the requests made through the API client *)
  api : Api.State;
}.

(** The state at mount: the initial values given to [useState]. *)
Definition mounted : State :=
  {| loading := false; modalVisible := false;
     modalConfig := {| title := ""; message := ""; type := success |};
     api := Api.initial |}.

Definition setLoading (b : bool) : M State unit :=
  modify (fun s =>
    {| loading := b; modalVisible := modalVisible s;
       modalConfig := modalConfig s; api := api s |}).

Definition setModalVisible (b : bool) : M State unit :=
  modify (fun s =>
    {| loading := loading s; modalVisible := b;
       modalConfig := modalConfig s; api := api s |}).

Definition setModalConfig (c : ModalConfig) : M State unit :=
  modify (fun s =>
    {| loading := loading s; modalVisible := modalVisible s;
       modalConfig := c; api := api s |}).

(** A computation of the API client, run on the button's surroundings. *)
Definition in_api {A} (m : M Api.State A) : M State A :=
  fun s =>
    match m (api s) with
    | (c, a) =>
        (c, {| loading := loading s; modalVisible := modalVisible s;
               modalConfig := modalConfig s; api := a |})
    end.

Definition console_write (st : NotificationContext.stream) (args : list value)
  : M State unit :=
  in_api (Api.console_write st args).

(** [showModal] (lines 258-261). *)
Definition showModal (title message : string) (type : modal_type) : M State unit :=
  setModalConfig {| title := title; message := message; type := type |};;
  setModalVisible true.

(** The notification the button sends (lines 270-273). *)
Definition test_notification : Api.SendNotificationRequest :=
  {| Api.title := "Hello from Natively! ðŸ‘‹";
     Api.message := "This is a test push notification sent from your app." |}.

(** [handlePress] (lines 263-297). *)
Definition handlePress (cfg : Api.Config) (w : Api.World) : M State unit :=
  console_write NotificationContext.log
    [ VStr "[SendNotificationButton] User tapped Send Notification button" ];;
  setLoading true;;
  try_finally
    (try_catch
       (console_write NotificationContext.log
          [ VStr "[API] Requesting POST /api/notifications/send..." ];;
        response ← in_api (Api.sendNotification cfg w test_notification);
        console_write NotificationContext.log
          [ VStr "[API] Notification sent successfully:"; response ];;
        notificationId ← lift (get response "notificationId");
        showModal "Success"
          ("Notification sent successfully! ðŸŽ‰" ++
           (if truthy notificationId
            then LF ++ LF ++ "Notification ID: " ++ to_string notificationId
            else ""))
          success)
       (fun e =>
          console_write NotificationContext.error
            [ VStr "[API] Failed to send notification:"; value_of_thrown e ];;
          let errorMessage :=
            match e with
            | ErrorObject _ message => message
            | Thrown _ => "Failed to send notification. Please try again."
            end in
          showModal "Error" errorMessage error))
    (setLoading false).

(** The [onClose] handed to the modal (line 334). *)
Definition onClose : M State unit := setModalVisible false.

End SendNotificationButton.

(** ** The preferences screen: [NotificationPreferencesScreen] *)

Module PreferencesScreen.

(** One entry of [NOTIFICATION_CATEGORIES]. *)
Record Category : Type := {
  key : string;
  label : string;
  description : string;
  defaultEnabled : bool;
}.

Definition NOTIFICATION_CATEGORIES : list Category :=
  [ {| key := "updates"; label := "App Updates";
       description := "New features and improvements"; defaultEnabled := true |};
    {| key := "promotions"; label := "Promotions";
       description := "Special offers and discounts"; defaultEnabled := true |};
    {| key := "reminders"; label := "Reminders";
       description := "Activity reminders and tips"; defaultEnabled := true |} ].

(** [Object.fromEntries(entries)]: a later entry replaces an earlier one
    with the same key. *)
Definition fromEntries (entries : list (string * bool)) : gmap string bool :=
  foldl (fun m kv => <[kv.1 := kv.2]> m) ∅ entries.

(** One [Alert.alert(title, message, buttons)] call; a button is its text
    and its style, when it has one. *)
Record Alert : Type := {
  alert_title : string;
  alert_message : string;
  alert_buttons : list (string * option string);
}.

(** The calls on [Linking]. *)
Inductive LinkingCall : Type :=
| openURL (url : string)
| openSettings.

Record State : Type := {
  (* what [useNotifications()] gives: the provider's state *)
  context : NotificationContext.State;
  (* the [useState] cell of the screen *)
  categories : gmap string bool;
  (* the surroundings *)
  alerts : list Alert;
  linking : list LinkingCall;
}.

(** The screen at mount, inside a provider in state [c]. *)
Definition mounted (c : NotificationContext.State) : State :=
  {| context := c;
     categories :=
       fromEntries (map (fun cat => (key cat, defaultEnabled cat)) NOTIFICATION_CATEGORIES);
     alerts := []; linking := [] |}.

(** An operation of the provider, called from the screen. *)
Definition in_context {A} (m : M NotificationContext.State A) : M State A :=
  fun s =>
    match m (context s) with
    | (c, ctx) =>
        (c, {| context := ctx; categories := categories s;
               alerts := alerts s; linking := linking s |})
    end.

Definition setCategories (f : gmap string bool -> gmap string bool) : M State unit :=
  modify (fun s =>
    {| context := context s; categories := f (categories s);
       alerts := alerts s; linking := linking s |}).

Definition Alert_alert (title message : string) (buttons : list (string * option string))
  : M State unit :=
  modify (fun s =>
    {| context := context s; categories := categories s;
       alerts := alerts s ++ [ {| alert_title := title; alert_message := message;
                                  alert_buttons := buttons |} ];
       linking := linking s |}).

Definition Linking_call (c : LinkingCall) : M State unit :=
  modify (fun s =>
    {| context := context s; categories := categories s;
       alerts := alerts s; linking := linking s ++ [c] |}).

Section Screen.

Variable cfg : NotificationContext.Config.
Variable sdk : NotificationContext.SDK.

(** The [onPress] of the alert's "Open Settings" button (lines 67-73). *)
Definition open_settings_onPress : M State unit :=
  if String.eqb (NotificationContext.Platform_OS cfg) "ios"
  then Linking_call (openURL "app-settings:")
  else Linking_call openSettings.

(** [handleEnableNotifications] (lines 58-81).  [permissionDenied] is the
    provider's value at the render the handler belongs to: the current
    one. *)
Definition handleEnableNotifications : M State unit :=
  fun s =>
    (if NotificationContext.permissionDenied (context s) then
       Alert_alert "Notifications Disabled"
         "To receive notifications, please enable them in your device settings."
         [ ("Cancel", Some "cancel"); ("Open Settings", None) ]
     else
       in_context (NotificationContext.requestPermission cfg sdk);;
       mret tt) s.

(** [handleCategoryToggle] (lines 83-91). *)
Definition handleCategoryToggle (key : string) (value : bool) : M State unit :=
  setCategories (fun prev => <[key := value]> prev);;
  if value then
    in_context (NotificationContext.sendTag cfg sdk ("notify_" ++ key) "true")
  else
    in_context (NotificationContext.deleteTag cfg sdk ("notify_" ++ key)).

End Screen.

End PreferencesScreen.

(** ** More sample worlds *)

Module MoreSamples.

(** A notification as the SDK hands it to the foreground listener. *)
Definition greeting : NotificationContext.Notification :=
  {| NotificationContext.title := VStr "Hello";
     NotificationContext.body := VStr "World";
     NotificationContext.additionalData := VObj [] |}.

(** The app, configured with its backend. *)
Definition app : Api.Config :=
  {| Api.expoConfig_extra := Some {[ "backendUrl" := "https://relay.example.com" ]} |}.

(** The app whose [app.json] has no [backendUrl]. *)
Definition app_without_backend : Api.Config :=
  {| Api.expoConfig_extra := Some ∅ |}.

Definition answer (status : Z) (statusText : string) (json : completion value)
  : Notifications.Response :=
  {| Notifications.status := status; Notifications.statusText := statusText;
     Notifications.text := Normal ""; Notifications.json := json |}.

(** A backend that relays the notification. *)
Definition backend_accepts : Api.World :=
  {| Api.fetch := fun _ _ =>
       Normal (answer 200 "OK"
                 (Normal (VObj [ ("success", VBool true);
                                 ("notificationId", VStr "abc123") ]))) |}.

(** A backend that relays the notification and has no id to give. *)
Definition backend_accepts_unnamed : Api.World :=
  {| Api.fetch := fun _ _ =>
       Normal (answer 200 "OK" (Normal (VObj [ ("success", VBool true) ]))) |}.

(** A backend without its REST key. *)
Definition backend_unconfigured : Api.World :=
  {| Api.fetch := fun _ _ =>
       Normal (answer 500 "Internal Server Error"
                 (Normal (VObj [ ("success", VBool false);
                                 ("error", VStr "OneSignal not configured") ]))) |}.

(** A backend that answers 404 with an empty JSON object. *)
Definition backend_not_found : Api.World :=
  {| Api.fetch := fun _ _ => Normal (answer 404 "Not Found" (Normal (VObj []))) |}.

(** A backend that answers 204 with no body. *)
Definition backend_no_content : Api.World :=
  {| Api.fetch := fun _ _ =>
       Normal (answer 204 "No Content"
                 (Throw (ErrorObject "SyntaxError" "Unexpected end of JSON input"))) |}.

(** A [fetch] that throws something that is not an [Error]. *)
Definition backend_throws_text : Api.World :=
  {| Api.fetch := fun _ _ => Throw (Thrown (VStr "offline")) |}.



(** An SDK on which the listeners cannot be registered. *)
Definition sdk_without_events : NotificationContext.SDK :=
  {| NotificationContext.answer_unit := fun _ c =>
       match c with
       | NotificationContext.Notifications_addEventListener _ =>
           Throw (ErrorObject "Error" "events unavailable")
       | _ => Normal tt
       end;
     NotificationContext.answer_bool := fun _ _ => Normal true |}.

(** A [fetch] that fails as the platform's does when the network is down. *)
Definition backend_offline : Api.World :=
  {| Api.fetch := fun _ _ => Throw (ErrorObject "TypeError" "Failed to fetch") |}.

(** The provider accepts, as in [Samples.provider_accepts], under another key. *)
Definition provider_accepts_rotated_key : Notifications.World :=
  {| Notifications.process_env := {[ "ONESIGNAL_REST_API_KEY" := "r0t4t3d" ]};
     Notifications.fetch := Notifications.fetch Samples.provider_accepts |}.

End MoreSamples.

(** ** The relay: theorems *)

Module NotificationsSpec.

Import Notifications.

(** Runs the monadic plumbing of a handler run. *)
Ltac run :=
  unfold serve, handler, try_block, catch_block, await_fetch, app_logger,
    reply_status, reply_send, http_response, returns;
  unfold try_catch, mbind, M_bind, bind, modify, lift; cbn.

Lemma truthy_VStr (s : string) : truthy (VStr s) = true <-> s <> "".
Proof.
  cbn. destruct (String.eqb_spec s ""); cbn; split; congruence.
Qed.

Lemma usable_key_Some (k : string) : k <> "" -> usable_key (Some k) = Some k.
Proof.
  intros Hk. cbn. destruct (String.eqb_spec k ""); congruence.
Qed.

Lemma ok_iff (r : Response) : ok r = true <-> 200 <= status r <= 299.
Proof. unfold ok. rewrite andb_true_iff, !Z.leb_le. reflexivity. Qed.

Lemma not_ok_iff (r : Response) : ok r = false <-> ~ (200 <= status r <= 299).
Proof. rewrite <- ok_iff. destruct (ok r); split; congruence. Qed.

(** Up to the provider call, a validated and configured request runs the
    same way whatever the provider then answers. *)
Lemma serve_calls_provider (w : World) (req : SendNotificationBody) (k : string) :
  truthy (title req) = true -> truthy (message req) = true ->
  process_env w !! "ONESIGNAL_REST_API_KEY" = Some k -> k <> "" ->
  outbound (serve w req).2
    = [(provider_url, provider_init k (title req) (message req))].
Proof.
  intros Ht Hm Henv Hk. run. rewrite Ht, Hm, Henv, (usable_key_Some k Hk). cbn.
  destruct (fetch w _ _) as [r|e]; cbn; [|reflexivity].
  destruct (ok r); cbn.
  - destruct (json r) as [d|e]; cbn; [|reflexivity].
    destruct (get d "id"); reflexivity.
  - destruct (text r); reflexivity.
Qed.

(** C1.  A request with non-empty (truthy) title and message, served with
    the REST API key configured, makes exactly one provider call: a POST
    to the notification endpoint whose body is
    [{app_id, included_segments: ["All"], headings: {en: title},
    contents: {en: message}}].  When the provider answers with a 2xx
    status and a JSON object, the relay answers 200 with
    [{success: true, notificationId: id}] where [id] is the object's
    [id], and with [{success: true}] alone when the object has no [id]. *)
Theorem send_relays_to_provider
    (w : World) (req : SendNotificationBody) (k : string) :
  truthy (title req) = true -> truthy (message req) = true ->
  process_env w !! "ONESIGNAL_REST_API_KEY" = Some k -> k <> "" ->
  let url := "https://onesignal.com/api/v1/notifications" in
  let init :=
    {| method := "POST";
       headers := [ ("Content-Type", "application/json; charset=utf-8");
                    ("Authorization", "Basic " ++ k) ];
       body := VObj [ ("app_id", VStr appId);
                      ("included_segments", VArr [VStr "All"]);
                      ("headings", VObj [("en", title req)]);
                      ("contents", VObj [("en", message req)]) ] |} in
  outbound (serve w req).2 = [(url, init)] /\
  forall (r : Response) (data : list (string * value)),
    fetch w url init = Normal r -> 200 <= status r <= 299 ->
    json r = Normal (VObj data) ->
    returns (serve w req) /\
    (forall id : string, assoc "id" data = Some (VStr id) ->
       http_response (serve w req)
         = (200, Some [("success", VBool true); ("notificationId", VStr id)])) /\
    (assoc "id" data = None ->
       http_response (serve w req) = (200, Some [("success", VBool true)])).
Proof.
  intros Ht Hm Henv Hk url init. split.
  - exact (serve_calls_provider w req k Ht Hm Henv Hk).
  - intros r data Hfetch Hstatus Hjson. apply ok_iff in Hstatus.
    change url with provider_url in Hfetch.
    change init with (provider_init k (title req) (message req)) in Hfetch.
    run. rewrite Ht, Hm, Henv, (usable_key_Some k Hk). cbn.
    rewrite Hfetch. cbn. rewrite Hstatus. cbn. rewrite Hjson. cbn.
    split; [exact I|]. split.
    + intros id Hid. rewrite Hid. reflexivity.
    + intros Hid. rewrite Hid. reflexivity.
Qed.

Lemma send_relays_to_provider_witness :
  outbound (serve Samples.provider_accepts Samples.request_hello).2
    = [ ("https://onesignal.com/api/v1/notifications",
         {| method := "POST";
            headers := [ ("Content-Type", "application/json; charset=utf-8");
                         ("Authorization", "Basic s3cr3t") ];
            body := VObj [ ("app_id", VStr "84bd5859-82bd-44dd-8a2e-c7e1ccca59f9");
                           ("included_segments", VArr [VStr "All"]);
                           ("headings", VObj [("en", VStr "Hello")]);
                           ("contents", VObj [("en", VStr "World")]) ] |}) ] /\
  http_response (serve Samples.provider_accepts Samples.request_hello)
    = (200, Some [("success", VBool true); ("notificationId", VStr "abc123")]).
Proof.
  destruct (send_relays_to_provider Samples.provider_accepts Samples.request_hello
              "s3cr3t" eq_refl eq_refl eq_refl ltac:(discriminate))
    as [Hcall Hanswer].
  split; [exact Hcall|].
  destruct (Hanswer _ [("id", VStr "abc123")] eq_refl ltac:(cbn; lia) eq_refl)
    as (_ & Hid & _).
  exact (Hid "abc123" eq_refl).
Defined.

(** The same request, answered by the provider without an [id]. *)
Example relay_answer_without_id :
  http_response (serve Samples.provider_accepts_unnamed Samples.request_hello)
    = (200, Some [("success", VBool true)]).
Proof. reflexivity. Qed.





(** C3.  A request with both fields non-empty (truthy), served without the
    REST key in the process environment, is answered 500 with
    [{success: false, error: "OneSignal not configured"}], and no provider
    call is made. *)
Theorem missing_key_reported (w : World) (req : SendNotificationBody) :
  truthy (title req) = true -> truthy (message req) = true ->
  process_env w !! "ONESIGNAL_REST_API_KEY" = None ->
  returns (serve w req) /\
  http_response (serve w req)
    = (500, Some [ ("success", VBool false);
                   ("error", VStr "OneSignal not configured") ]) /\
  outbound (serve w req).2 = [].
Proof.
  intros Ht Hm Henv. run. rewrite Ht, Hm, Henv. cbn. repeat split.
Qed.

Lemma missing_key_reported_witness :
  http_response (serve Samples.unconfigured Samples.request_hello)
    = (500, Some [ ("success", VBool false);
                   ("error", VStr "OneSignal not configured") ]) /\
  outbound (serve Samples.unconfigured Samples.request_hello).2 = [].
Proof.
  exact (proj2 (missing_key_reported Samples.unconfigured Samples.request_hello
                  eq_refl eq_refl eq_refl)).
Defined.

(** A key set to the empty string counts as not configured, too. *)
Lemma empty_key_reported (w : World) (req : SendNotificationBody) :
  truthy (title req) = true -> truthy (message req) = true ->
  process_env w !! "ONESIGNAL_REST_API_KEY" = Some "" ->
  http_response (serve w req)
    = (500, Some [ ("success", VBool false);
                   ("error", VStr "OneSignal not configured") ]) /\
  outbound (serve w req).2 = [].
Proof.
  intros Ht Hm Henv. run. rewrite Ht, Hm, Henv. cbn. repeat split.
Qed.

(** C4.  For a well-formed request, when the provider answers with a
    status outside 200-299 and a body that reads as [raw], the relay
    answers 500 with
    [{success: false, error: "OneSignal API error: <status text>"}].
    The raw body does not reach the caller: with any other body in its
    place the relay's response is the same. *)
Theorem provider_error_sanitized
    (w : World) (req : SendNotificationBody) (k : string)
    (r : Response) (raw : string) :
  truthy (title req) = true -> truthy (message req) = true ->
  process_env w !! "ONESIGNAL_REST_API_KEY" = Some k -> k <> "" ->
  fetch w provider_url (provider_init k (title req) (message req)) = Normal r ->
  ~ (200 <= status r <= 299) ->
  text r = Normal raw ->
  returns (serve w req) /\
  http_response (serve w req)
    = (500, Some [ ("success", VBool false);
                   ("error", VStr ("OneSignal API error: " ++ statusText r)) ]) /\
  forall (raw' : string) (parsed' : completion value),
    http_response (serve (with_body raw' parsed' w) req)
      = http_response (serve w req).
Proof.
  intros Ht Hm Henv Hk Hfetch Hstatus Htext. apply not_ok_iff in Hstatus.
  assert (forall w' r' raw',
            process_env w' !! "ONESIGNAL_REST_API_KEY" = Some k ->
            fetch w' provider_url (provider_init k (title req) (message req))
              = Normal r' ->
            ok r' = false -> text r' = Normal raw' ->
            returns (serve w' req) /\
            http_response (serve w' req)
              = (500, Some [ ("success", VBool false);
                             ("error", VStr ("OneSignal API error: " ++ statusText r')) ]))
    as Hrun.
  { intros w' r' raw' Henv' Hfetch' Hok' Htext'. run.
    rewrite Ht, Hm, Henv', (usable_key_Some k Hk). cbn.
    rewrite Hfetch'. cbn. rewrite Hok'. cbn. rewrite Htext'. cbn.
    split; [exact I | reflexivity]. }
  destruct (Hrun w r raw Henv Hfetch Hstatus Htext) as [Hret Hresp].
  split; [exact Hret|]. split; [exact Hresp|].
  intros raw' parsed'. rewrite Hresp.
  refine (proj2 (Hrun (with_body raw' parsed' w)
                   {| status := status r; statusText := statusText r;
                      text := Normal raw'; json := parsed' |} raw' Henv _ Hstatus eq_refl)).
  cbn. rewrite Hfetch. reflexivity.
Qed.

Lemma provider_error_sanitized_witness :
  http_response (serve Samples.provider_refuses Samples.request_hello)
    = (500, Some [ ("success", VBool false);
                   ("error", VStr "OneSignal API error: Bad Request") ]) /\
  http_response
    (serve (with_body "another body" (Normal VNull) Samples.provider_refuses)
       Samples.request_hello)
    = http_response (serve Samples.provider_refuses Samples.request_hello).
Proof.
  destruct (provider_error_sanitized Samples.provider_refuses Samples.request_hello
              "s3cr3t"
              {| status := 400; statusText := "Bad Request";
                 text := Normal "{errors:[app_id not found]}";
                 json := Normal (VObj [("errors", VArr [VStr "app_id not found"])]) |}
              "{errors:[app_id not found]}"
              eq_refl eq_refl eq_refl ltac:(discriminate) eq_refl
              ltac:(cbn; lia) eq_refl)
    as (_ & Hresp & Hindep).
  split; [exact Hresp | exact (Hindep "another body" (Normal VNull))].
Defined.

(** The raw body is logged on the server side. *)
Lemma provider_error_logged
    (w : World) (req : SendNotificationBody) (k : string)
    (r : Response) (raw : string) :
  truthy (title req) = true -> truthy (message req) = true ->
  process_env w !! "ONESIGNAL_REST_API_KEY" = Some k -> k <> "" ->
  fetch w provider_url (provider_init k (title req) (message req)) = Normal r ->
  ok r = false -> text r = Normal raw ->
  last (logged (serve w req).2)
    = Some {| log_level := error;
              log_fields := [ ("status", VNum (status r)); ("errorData", VStr raw);
                              ("title", title req); ("message", message req) ];
              log_msg := "OneSignal API returned error" |}.
Proof.
  intros Ht Hm Henv Hk Hfetch Hok Htext. run.
  rewrite Ht, Hm, Henv, (usable_key_Some k Hk). cbn.
  rewrite Hfetch. cbn. rewrite Hok. cbn. rewrite Htext. reflexivity.
Qed.

(** The catch block never throws, and answers 500 with the error text. *)
Lemma try_catch_answers (w : World) (title message : value) (s s' : State)
    (e : thrown) :
  try_block w title message s = (Throw e, s') ->
  exists s'',
    try_catch (try_block w title message) (catch_block title message) s
      = (Normal tt, s'') /\
    outbound s'' = outbound s' /\
    reply s'' = {| statusCode := 500;
                   sent := Some (VObj [ ("success", VBool false);
                                        ("error", VStr (error_text e)) ]) |}.
Proof.
  intros Hthrow. unfold try_catch. rewrite Hthrow.
  unfold catch_block, app_logger, reply_status, reply_send.
  unfold mbind, M_bind, bind, modify. cbn. eexists. repeat split.
Qed.

(** C5.  The handler never ends in an exception.  Whatever is thrown in
    the [try] block is answered 500 with [{success: false, error: e}],
    [e] being the exception's message when it is an [Error] and
    ["Unknown error occurred"] otherwise. *)
Theorem exceptions_become_500 (w : World) (req : SendNotificationBody) :
  returns (serve w req) /\
  forall (e : thrown) (s : State),
    try_block w (title req) (message req) (at_try req) = (Throw e, s) ->
    http_response (serve w req)
      = (500, Some [ ("success", VBool false);
                     ("error", VStr match e with
                                    | ErrorObject _ message => message
                                    | Thrown _ => "Unknown error occurred"
                                    end) ]).
Proof.
  assert (serve w req
          = try_catch (try_block w (title req) (message req))
              (catch_block (title req) (message req)) (at_try req)) as Hserve
    by reflexivity.
  split.
  - rewrite Hserve. unfold returns, try_catch.
    destruct (try_block w (title req) (message req) (at_try req))
      as [[[]|e] s] eqn:Hbody; [exact I|].
    destruct (try_catch_answers w _ _ _ _ _ Hbody) as (s'' & Hrun & _).
    unfold try_catch in Hrun. rewrite Hbody in Hrun. rewrite Hrun. exact I.
  - intros e s Hbody. rewrite Hserve.
    destruct (try_catch_answers w _ _ _ _ _ Hbody) as (s'' & -> & _ & Hreply).
    unfold http_response. cbn. rewrite Hreply. reflexivity.
Qed.

Lemma exceptions_become_500_witness :
  returns (serve Samples.network_down Samples.request_hello) /\
  http_response (serve Samples.network_down Samples.request_hello)
    = (500, Some [("success", VBool false); ("error", VStr "fetch failed")]).
Proof.
  destruct (exceptions_become_500 Samples.network_down Samples.request_hello)
    as [Hret Hcaught].
  split; [exact Hret|].
  exact (Hcaught (ErrorObject "TypeError" "fetch failed") _ eq_refl).
Defined.

(** A 200 answer whose body is not JSON. *)
Example relay_answer_garbled :
  http_response (serve Samples.provider_garbled Samples.request_hello)
    = (500, Some [ ("success", VBool false);
                   ("error", VStr "Unexpected token < in JSON at position 0") ]).
Proof. reflexivity. Qed.

(** The sources of exceptions in the [try] block, one by one. *)

Lemma fetch_rejects (w : World) (req : SendNotificationBody) (k : string)
    (e : thrown) :
  truthy (title req) = true -> truthy (message req) = true ->
  process_env w !! "ONESIGNAL_REST_API_KEY" = Some k -> k <> "" ->
  fetch w provider_url (provider_init k (title req) (message req)) = Throw e ->
  http_response (serve w req)
    = (500, Some [("success", VBool false); ("error", VStr (error_text e))]).
Proof.
  intros Ht Hm Henv Hk Hfetch. run.
  rewrite Ht, Hm, Henv, (usable_key_Some k Hk). cbn. rewrite Hfetch. reflexivity.
Qed.

Lemma body_read_fails (w : World) (req : SendNotificationBody) (k : string)
    (r : Response) (e : thrown) :
  truthy (title req) = true -> truthy (message req) = true ->
  process_env w !! "ONESIGNAL_REST_API_KEY" = Some k -> k <> "" ->
  fetch w provider_url (provider_init k (title req) (message req)) = Normal r ->
  (if ok r then json r = Throw e else text r = Throw e) ->
  http_response (serve w req)
    = (500, Some [("success", VBool false); ("error", VStr (error_text e))]).
Proof.
  intros Ht Hm Henv Hk Hfetch Hbody. run.
  rewrite Ht, Hm, Henv, (usable_key_Some k Hk). cbn. rewrite Hfetch. cbn.
  destruct (ok r); cbn; rewrite Hbody; reflexivity.
Qed.

Lemma body_is_null (w : World) (req : SendNotificationBody) (k : string)
    (r : Response) :
  truthy (title req) = true -> truthy (message req) = true ->
  process_env w !! "ONESIGNAL_REST_API_KEY" = Some k -> k <> "" ->
  fetch w provider_url (provider_init k (title req) (message req)) = Normal r ->
  ok r = true -> json r = Normal VNull ->
  http_response (serve w req)
    = (500, Some [ ("success", VBool false);
                   ("error", VStr "Cannot read properties of null (reading 'id')") ]).
Proof.
  intros Ht Hm Henv Hk Hfetch Hok Hjson. run.
  rewrite Ht, Hm, Henv, (usable_key_Some k Hk). cbn. rewrite Hfetch. cbn.
  rewrite Hok. cbn. rewrite Hjson. reflexivity.
Qed.

End NotificationsSpec.

(** ** The client manager: theorems *)

Module NotificationContextSpec.

Import NotificationContext.

(** Runs the monadic plumbing of the provider's code. *)
Ltac run :=
  unfold mount_effect, initialize_try_block, requestPermission, sendTag,
    deleteTag, on_permissionChange, on_foregroundWillDisplay, addEventListener,
    native, setHasPermission, setPermissionDenied, setLoading,
    setLastNotification, console_write, returns;
  unfold try_finally, try_catch, mbind, M_bind, mret, M_ret, bind, ret, modify;
  cbn.

(** Case analysis on every SDK answer and configuration test in the goal. *)
Ltac cases :=
  repeat match goal with
    | |- context [answer_unit ?sdk ?h ?c] => destruct (answer_unit sdk h c) as [[]|?]; cbn
    | |- context [answer_bool ?sdk ?h ?c] => destruct (answer_bool sdk h c) as [?|?]; cbn
    | |- context [DEV ?cfg] => destruct (DEV cfg); cbn
    | |- context [isWeb ?cfg] => destruct (isWeb cfg); cbn
    | |- context [String.eqb (ONESIGNAL_APP_ID ?cfg) ""] =>
        destruct (String.eqb (ONESIGNAL_APP_ID cfg) ""); cbn
    end.

Section Provider.

Variable cfg : Config.
Variable sdk : SDK.

(** *** What each piece of code leaves untouched *)

Lemma mount_effect_permissionDenied (s : State) :
  permissionDenied (mount_effect cfg sdk s).2 = permissionDenied s.
Proof. run. cases; reflexivity. Qed.

Lemma requestPermission_permission (s : State) :
  let s' := (requestPermission cfg sdk s).2 in
  (hasPermission s' = hasPermission s /\ permissionDenied s' = permissionDenied s)
  \/ exists granted : bool,
       hasPermission s' = granted /\ permissionDenied s' = negb granted.
Proof. run. cases; eauto. Qed.

Lemma sendTag_permission (key value : string) (s : State) :
  hasPermission (sendTag cfg sdk key value s).2 = hasPermission s /\
  permissionDenied (sendTag cfg sdk key value s).2 = permissionDenied s.
Proof. run. cases; auto. Qed.

Lemma deleteTag_permission (key : string) (s : State) :
  hasPermission (deleteTag cfg sdk key s).2 = hasPermission s /\
  permissionDenied (deleteTag cfg sdk key s).2 = permissionDenied s.
Proof. run. cases; auto. Qed.

Lemma on_foregroundWillDisplay_permission (n : Notification) (s : State) :
  hasPermission (on_foregroundWillDisplay sdk n s).2 = hasPermission s /\
  permissionDenied (on_foregroundWillDisplay sdk n s).2 = permissionDenied s.
Proof. run. cases; auto. Qed.

Lemma on_permissionChange_permission (granted : bool) (s : State) :
  hasPermission (on_permissionChange granted s).2 = granted /\
  permissionDenied (on_permissionChange granted s).2 = negb granted.
Proof. run. auto. Qed.

(** *** The invariant *)

Lemma step_consistent (s : State) (a : action) :
  consistent s -> consistent (step cfg sdk s a).
Proof.
  unfold consistent. intros Hs. destruct a as [|k v|k|granted|n]; cbn [step].
  - destruct (requestPermission_permission s) as [[-> ->]|(g & -> & ->)];
      [exact Hs | apply andb_negb_r].
  - destruct (sendTag_permission k v s) as [-> ->]. exact Hs.
  - destruct (deleteTag_permission k s) as [-> ->]. exact Hs.
  - destruct (listening "permissionChange" s); [|exact Hs].
    destruct (on_permissionChange_permission granted s) as [-> ->].
    apply andb_negb_r.
  - destruct (listening "foregroundWillDisplay" s); [|exact Hs].
    destruct (on_foregroundWillDisplay_permission n s) as [-> ->]. exact Hs.
Qed.

Lemma foldl_step_consistent (actions : list action) (s : State) :
  consistent s -> consistent (foldl (step cfg sdk) s actions).
Proof.
  revert s. induction actions as [|a actions IH]; intros s Hs; cbn.
  - exact Hs.
  - apply IH, step_consistent, Hs.
Qed.

Lemma reachable_consistent (s : State) :
  reachable cfg sdk s -> consistent s.
Proof.
  intros [-> | [actions ->]]; [reflexivity|].
  apply foldl_step_consistent. unfold consistent.
  rewrite mount_effect_permissionDenied. apply andb_false_r.
Qed.

End Provider.

(** C6.  On the web, [requestPermission] resolves to [false] and changes
    nothing: no SDK call is made.  On any other platform it makes one SDK
    call, [Notifications.requestPermission(true)]; when the SDK answers
    with a boolean, [hasPermission] becomes that boolean,
    [permissionDenied] its negation, and the boolean is returned. *)
Theorem requestPermission_spec (cfg : Config) (sdk : SDK) (s : State) :
  (isWeb cfg = true -> requestPermission cfg sdk s = (Normal false, s)) /\
  (isWeb cfg = false ->
     sdk_calls (requestPermission cfg sdk s).2
       = (sdk_calls s ++ [Notifications_requestPermission true])%list /\
     forall granted : bool,
       answer_bool sdk (sdk_calls s) (Notifications_requestPermission true)
         = Normal granted ->
       (requestPermission cfg sdk s).1 = Normal granted /\
       hasPermission (requestPermission cfg sdk s).2 = granted /\
       permissionDenied (requestPermission cfg sdk s).2 = negb granted).
Proof.
  split; intros Hweb; run; rewrite Hweb; cbn; [reflexivity|].
  split.
  - cases; reflexivity.
  - intros granted ->. cbn. auto.
Qed.

Lemma requestPermission_spec_witness :
  requestPermission ClientSamples.web_app ClientSamples.sdk_granting mounted
    = (Normal false, mounted) /\
  (requestPermission ClientSamples.ios_app ClientSamples.sdk_refusing mounted).1
    = Normal false /\
  sdk_calls (requestPermission ClientSamples.ios_app ClientSamples.sdk_refusing mounted).2
    = [Notifications_requestPermission true] /\
  hasPermission (requestPermission ClientSamples.ios_app ClientSamples.sdk_refusing mounted).2
    = false /\
  permissionDenied (requestPermission ClientSamples.ios_app ClientSamples.sdk_refusing mounted).2
    = true.
Proof.
  split.
  - exact (proj1 (requestPermission_spec ClientSamples.web_app
                    ClientSamples.sdk_granting mounted) eq_refl).
  - destruct (proj2 (requestPermission_spec ClientSamples.ios_app
                       ClientSamples.sdk_refusing mounted) eq_refl)
      as [Hcalls Hresult].
    destruct (Hresult false eq_refl) as (Hret & Hhas & Hdenied).
    exact (conj Hret (conj Hcalls (conj Hhas Hdenied))).
Defined.

(** C7, as the code has it.  On a non-web platform with no application
    identifier, the mount effect makes no SDK call, registers no listener
    and leaves [loading = false], [hasPermission = false].  The three
    operations are not gated on the identifier: each still makes its SDK
    call. *)
Theorem missing_app_id_skips_initialization
    (cfg : Config) (sdk : SDK) (key value : string) :
  isWeb cfg = false -> ONESIGNAL_APP_ID cfg = "" ->
  let s := (mount_effect cfg sdk mounted).2 in
  (loading s = false /\ hasPermission s = false /\
   sdk_calls s = [] /\ listeners s = []) /\
  sdk_calls (requestPermission cfg sdk s).2 = [Notifications_requestPermission true] /\
  sdk_calls (sendTag cfg sdk key value s).2 = [User_addTag key value] /\
  sdk_calls (deleteTag cfg sdk key s).2 = [User_removeTag key].
Proof.
  intros Hweb Hid. run. rewrite Hweb, Hid. cbn. repeat split; cases; reflexivity.
Qed.

Lemma missing_app_id_skips_initialization_witness :
  let s := (mount_effect ClientSamples.ios_without_app_id ClientSamples.sdk_granting
              mounted).2 in
  (loading s = false /\ hasPermission s = false /\
   sdk_calls s = [] /\ listeners s = []) /\
  sdk_calls (requestPermission ClientSamples.ios_without_app_id
               ClientSamples.sdk_granting s).2
    = [Notifications_requestPermission true] /\
  sdk_calls (sendTag ClientSamples.ios_without_app_id ClientSamples.sdk_granting
               "notify_updates" "true" s).2
    = [User_addTag "notify_updates" "true"] /\
  sdk_calls (deleteTag ClientSamples.ios_without_app_id ClientSamples.sdk_granting
               "notify_updates" s).2
    = [User_removeTag "notify_updates"].
Proof.
  exact (missing_app_id_skips_initialization ClientSamples.ios_without_app_id
           ClientSamples.sdk_granting "notify_updates" "true" eq_refl eq_refl).
Defined.

(** C7 as stated fails: on a native build without an application
    identifier, after the mount effect, [requestPermission] calls the SDK
    and changes [hasPermission], and [sendTag] and [deleteTag] call the
    SDK as well. *)
Lemma operations_not_inert_without_app_id :
  let cfg := ClientSamples.ios_without_app_id in
  let sdk := ClientSamples.sdk_granting in
  let s := (mount_effect cfg sdk mounted).2 in
  isWeb cfg = false /\ ONESIGNAL_APP_ID cfg = "" /\
  ~ (loading s = false /\ hasPermission s = false /\
     requestPermission cfg sdk s = (Normal false, s) /\
     sendTag cfg sdk "k" "v" s = (Normal tt, s) /\
     deleteTag cfg sdk "k" s = (Normal tt, s)) /\
  sdk_calls (requestPermission cfg sdk s).2 <> sdk_calls s /\
  sdk_calls (sendTag cfg sdk "k" "v" s).2 <> sdk_calls s /\
  sdk_calls (deleteTag cfg sdk "k" s).2 <> sdk_calls s.
Proof.
  cbv zeta. split; [reflexivity|]. split; [reflexivity|].
  split; [|repeat split; vm_compute; discriminate].
  intros (_ & _ & Hrequest & _). vm_compute in Hrequest. discriminate.
Qed.

(** C8.  No failure of an SDK call reaches the caller.  [requestPermission]
    always returns, and returns [false] when the SDK call fails;
    [sendTag key value] and then [deleteTag key] both return, whatever the
    SDK does. *)
Theorem operations_never_throw
    (cfg : Config) (sdk : SDK) (s : State) (key value : string) :
  returns (requestPermission cfg sdk s) /\
  (forall e : thrown,
     answer_bool sdk (sdk_calls s) (Notifications_requestPermission true) = Throw e ->
     (requestPermission cfg sdk s).1 = Normal false) /\
  returns (sendTag cfg sdk key value s) /\
  returns (deleteTag cfg sdk key (sendTag cfg sdk key value s).2).
Proof.
  repeat split.
  - run. cases; exact I.
  - intros e He. run. destruct (isWeb cfg); cbn; [reflexivity|].
    rewrite He. reflexivity.
  - run. cases; exact I.
  - run. cases; exact I.
Qed.

Lemma operations_never_throw_witness :
  (requestPermission ClientSamples.ios_app ClientSamples.sdk_broken mounted).1
    = Normal false /\
  returns (sendTag ClientSamples.ios_app ClientSamples.sdk_broken "k" "v" mounted) /\
  returns (deleteTag ClientSamples.ios_app ClientSamples.sdk_broken "k"
             (sendTag ClientSamples.ios_app ClientSamples.sdk_broken "k" "v" mounted).2).
Proof.
  destruct (operations_never_throw ClientSamples.ios_app ClientSamples.sdk_broken
              mounted "k" "v") as (_ & Hfalse & Hsend & Hdelete).
  exact (conj (Hfalse _ eq_refl) (conj Hsend Hdelete)).
Defined.

(** C9.  The mount effect returns with [loading = false] on every path:
    on the web, without an application identifier, after a successful
    initialisation and after a failed one. *)
Theorem mount_effect_clears_loading (cfg : Config) (sdk : SDK) (s : State) :
  returns (mount_effect cfg sdk s) /\ loading (mount_effect cfg sdk s).2 = false.
Proof. run. cases; split; (exact I || reflexivity). Qed.

(** The four paths of the mount effect, on sample configurations. *)

Example mount_on_web :
  (mount_effect ClientSamples.web_app ClientSamples.sdk_granting mounted).2
    = {| hasPermission := false; permissionDenied := false; loading := false;
         lastNotification := None; sdk_calls := []; listeners := [];
         console := [] |}.
Proof. reflexivity. Qed.

Example mount_initializes :
  let s := (mount_effect ClientSamples.ios_app ClientSamples.sdk_granting mounted).2 in
  loading s = false /\ hasPermission s = true /\
  sdk_calls s = [ initialize "84bd5859-82bd-44dd-8a2e-c7e1ccca59f9";
                  Notifications_hasPermission;
                  Notifications_addEventListener "foregroundWillDisplay";
                  Notifications_addEventListener "permissionChange" ] /\
  listeners s = ["foregroundWillDisplay"; "permissionChange"].
Proof. repeat split. Qed.

Example mount_with_broken_sdk :
  let s := (mount_effect ClientSamples.ios_app ClientSamples.sdk_broken mounted).2 in
  loading s = false /\ hasPermission s = false /\
  sdk_calls s = [initialize "84bd5859-82bd-44dd-8a2e-c7e1ccca59f9"] /\
  listeners s = [] /\
  console s = [ {| console_stream := error;
                   console_args :=
                     [ VStr "[OneSignal] Failed to initialize:";
                       VObj [ ("type", VStr "Error");
                              ("message", VStr "native module missing") ] ] |} ].
Proof. repeat split. Qed.

(** C10.  The state at mount has [hasPermission = permissionDenied = false];
    the [permissionChange] listener and a successful [requestPermission]
    write [hasPermission = granted] and [permissionDenied = not granted]
    together, and a failed or skipped [requestPermission] writes neither;
    so in no reachable state are both true. *)
Theorem granted_and_denied_exclusive (cfg : Config) (sdk : SDK) :
  (hasPermission mounted = false /\ permissionDenied mounted = false) /\
  (forall (granted : bool) (s : State),
     hasPermission (on_permissionChange granted s).2 = granted /\
     permissionDenied (on_permissionChange granted s).2 = negb granted) /\
  (forall s : State,
     let s' := (requestPermission cfg sdk s).2 in
     (hasPermission s' = hasPermission s /\ permissionDenied s' = permissionDenied s)
     \/ exists granted : bool,
          (requestPermission cfg sdk s).1 = Normal granted /\
          hasPermission s' = granted /\ permissionDenied s' = negb granted) /\
  (forall s : State,
     reachable cfg sdk s ->
     ~ (hasPermission s = true /\ permissionDenied s = true)).
Proof.
  split; [split; reflexivity|]. split; [|split].
  - intros granted s. apply on_permissionChange_permission.
  - intros s. run. cases; eauto.
  - intros s Hs [Hhas Hdenied].
    pose proof (reachable_consistent cfg sdk s Hs) as Hc.
    unfold consistent in Hc. rewrite Hhas, Hdenied in Hc. discriminate.
Qed.

Lemma granted_and_denied_exclusive_witness :
  let s := run ClientSamples.ios_app ClientSamples.sdk_refusing
             [FirePermissionChange true; CallRequestPermission] in
  hasPermission s = false /\ permissionDenied s = true /\
  ~ (hasPermission s = true /\ permissionDenied s = true).
Proof.
  refine (conj eq_refl (conj eq_refl _)).
  apply (proj2 (proj2 (proj2 (granted_and_denied_exclusive ClientSamples.ios_app
                                ClientSamples.sdk_refusing)))).
  right. eexists. reflexivity.
Defined.

End NotificationContextSpec.

(** ** The relay: further properties *)

Module NotificationsMore.

Import Notifications.

#[local] Arguments usable_key : simpl never.

Ltac run :=
  unfold serve, handler, try_block, catch_block, await_fetch, app_logger,
    reply_status, reply_send, http_response, returns;
  unfold try_catch, mbind, M_bind, bind, modify, lift; cbn.

(** Case analysis on everything a handler run branches on. *)
Ltac branches :=
  repeat match goal with
    | |- context [truthy ?v] => destruct (truthy v) eqn:?; cbn
    | |- context [usable_key ?k] => destruct (usable_key k) as [?|] eqn:?; cbn
    | |- context [fetch ?w ?u ?i] => destruct (fetch w u i) as [?|?] eqn:?; cbn
    | |- context [ok ?r] => destruct (ok r) eqn:?; cbn
    | |- context [text ?r] => destruct (text r) as [?|?] eqn:?; cbn
    | |- context [json ?r] => destruct (json r) as [?|?] eqn:?; cbn
    | |- context [get ?d ?k] => destruct (get d k) as [?|?] eqn:?; cbn
    end.

Lemma usable_key_inv (o : option string) (k : string) :
  usable_key o = Some k -> o = Some k /\ k <> "".
Proof.
  unfold usable_key. destruct o as [k'|]; [|discriminate].
  destruct (String.eqb_spec k' ""); [discriminate|].
  intros [= ->]. auto.
Qed.

(** X1.  The relay calls nothing but the provider's endpoint, and at most once,
    whatever the provider answers: there is no retry. *)
Theorem at_most_one_provider_call (w : World) (req : SendNotificationBody) :
  outbound (serve w req).2 = [] \/
  exists k : string,
    process_env w !! "ONESIGNAL_REST_API_KEY" = Some k /\ k <> "" /\
    outbound (serve w req).2
      = [(provider_url, provider_init k (title req) (message req))].
Proof.
  run. branches; auto;
    right; match goal with H : usable_key _ = Some ?k |- _ =>
             exists k; destruct (usable_key_inv _ _ H); auto end.
Qed.

(** X2.  The REST key reaches the provider only.  Two runs that differ in the key
    alone, and in which the provider answers alike, log the same lines and
    send the same reply. *)
Theorem key_reaches_only_the_provider
    (w1 w2 : World) (req : SendNotificationBody) (k1 k2 : string) :
  process_env w1 !! "ONESIGNAL_REST_API_KEY" = Some k1 -> k1 <> "" ->
  process_env w2 !! "ONESIGNAL_REST_API_KEY" = Some k2 -> k2 <> "" ->
  fetch w1 provider_url (provider_init k1 (title req) (message req))
    = fetch w2 provider_url (provider_init k2 (title req) (message req)) ->
  logged (serve w1 req).2 = logged (serve w2 req).2 /\
  reply (serve w1 req).2 = reply (serve w2 req).2.
Proof.
  intros H1 Hk1 H2 Hk2 Hsame. run. rewrite H1, H2.
  rewrite (NotificationsSpec.usable_key_Some k1 Hk1),
    (NotificationsSpec.usable_key_Some k2 Hk2).
  destruct (truthy (title req)); cbn; [|auto].
  destruct (truthy (message req)); cbn; [|auto].
  rewrite Hsame. branches; auto.
Qed.

Lemma key_reaches_only_the_provider_witness :
  logged (serve Samples.provider_accepts Samples.request_hello).2
    = logged (serve MoreSamples.provider_accepts_rotated_key Samples.request_hello).2 /\
  reply (serve Samples.provider_accepts Samples.request_hello).2
    = reply (serve MoreSamples.provider_accepts_rotated_key Samples.request_hello).2.
Proof.
  exact (key_reaches_only_the_provider Samples.provider_accepts
           MoreSamples.provider_accepts_rotated_key Samples.request_hello
           "s3cr3t" "r0t4t3d" eq_refl ltac:(discriminate) eq_refl ltac:(discriminate)
           eq_refl).
Defined.

(** The replies a run can end with. *)
Lemma reply_cases (w : World) (req : SendNotificationBody) :
  (exists id : value,
     reply (serve w req).2
       = {| statusCode := 200;
            sent := Some (VObj [("success", VBool true); ("notificationId", id)]) |})
  \/
  (exists (code : Z) (err : string),
     (code = 400 \/ code = 500) /\
     reply (serve w req).2
       = {| statusCode := code;
            sent := Some (VObj [("success", VBool false); ("error", VStr err)]) |}).
Proof. run. branches; eauto 8. Qed.

(** X3.  Every request is answered, with status 200, 400 or 500.  A 200 reply
    says [success: true]; a 400 or 500 reply is exactly
    [{success: false, error: <text>}]. *)
Theorem reply_shape (w : World) (req : SendNotificationBody) :
  returns (serve w req) /\
  ((exists id : value,
      reply (serve w req).2
        = {| statusCode := 200;
             sent := Some (VObj [("success", VBool true); ("notificationId", id)]) |})
   \/
   (exists (code : Z) (err : string),
      (code = 400 \/ code = 500) /\
      reply (serve w req).2
        = {| statusCode := code;
             sent := Some (VObj [("success", VBool false); ("error", VStr err)]) |})).
Proof.
  split; [|apply reply_cases]. run. branches; exact I.
Qed.

(** X4.  The relay says 200 only when the request was valid, the key was
    configured, the provider was called and answered with a status in
    200-299 and a body that parsed. *)
Theorem success_means_provider_accepted (w : World) (req : SendNotificationBody) :
  statusCode (reply (serve w req).2) = 200 ->
  truthy (title req) = true /\ truthy (message req) = true /\
  exists (k : string) (r : Response) (data : value),
    process_env w !! "ONESIGNAL_REST_API_KEY" = Some k /\ k <> "" /\
    fetch w provider_url (provider_init k (title req) (message req)) = Normal r /\
    200 <= status r <= 299 /\
    json r = Normal data /\
    outbound (serve w req).2
      = [(provider_url, provider_init k (title req) (message req))].
Proof.
  run. branches; cbn; try discriminate; intros _.
  repeat split.
  match goal with H : usable_key _ = Some ?k |- _ =>
    destruct (usable_key_inv _ _ H) as [Henv Hk]; exists k end.
  match goal with Hok : ok ?r = true, Hj : json ?r = Normal ?d |- _ =>
    exists r, d; apply NotificationsSpec.ok_iff in Hok end.
  auto 10.
Qed.

Lemma success_means_provider_accepted_witness :
  exists (k : string) (r : Response) (data : value),
    process_env Samples.provider_accepts !! "ONESIGNAL_REST_API_KEY" = Some k /\
    k <> "" /\
    fetch Samples.provider_accepts provider_url
      (provider_init k (title Samples.request_hello) (message Samples.request_hello))
      = Normal r /\
    200 <= status r <= 299 /\
    json r = Normal data /\
    outbound (serve Samples.provider_accepts Samples.request_hello).2
      = [ (provider_url,
           provider_init k (title Samples.request_hello) (message Samples.request_hello)) ].
Proof.
  exact (proj2 (proj2 (success_means_provider_accepted Samples.provider_accepts
                         Samples.request_hello eq_refl))).
Defined.

(** X5.  Every outcome is logged: the run's last log line is at level [info]
    when the reply is 200, [warn] when it is 400 and [error] when it is 500,
    and its first line is the receipt of the request. *)
Theorem outcome_is_logged (w : World) (req : SendNotificationBody) :
  head (logged (serve w req).2)
    = Some {| log_level := info;
              log_fields := [("title", title req); ("message", message req)];
              log_msg := "Sending push notification via OneSignal" |} /\
  exists line : LogLine,
    last (logged (serve w req).2) = Some line /\
    log_level line
      = (if Z.eqb (statusCode (reply (serve w req).2)) 200 then info
         else if Z.eqb (statusCode (reply (serve w req).2)) 400 then warn
         else error).
Proof.
  run. branches; (split; [reflexivity|]); eexists; (split; [reflexivity|]); reflexivity.
Qed.

End NotificationsMore.

(** ** The client manager: further properties *)

Module NotificationContextMore.

Import NotificationContext.

Ltac run :=
  unfold mount_effect, initialize_try_block, requestPermission, sendTag,
    deleteTag, on_permissionChange, on_foregroundWillDisplay, addEventListener,
    native, setHasPermission, setPermissionDenied, setLoading,
    setLastNotification, console_write, returns;
  unfold try_finally, try_catch, mbind, M_bind, mret, M_ret, bind, ret, modify;
  cbn.

Ltac cases :=
  repeat match goal with
    | |- context [answer_unit ?sdk ?h ?c] => destruct (answer_unit sdk h c) as [[]|?]; cbn
    | |- context [answer_bool ?sdk ?h ?c] => destruct (answer_bool sdk h c) as [?|?]; cbn
    | |- context [DEV ?cfg] => destruct (DEV cfg); cbn
    | |- context [isWeb ?cfg] => destruct (isWeb cfg); cbn
    | |- context [String.eqb (ONESIGNAL_APP_ID ?cfg) ""] =>
        destruct (String.eqb (ONESIGNAL_APP_ID cfg) ""); cbn
    end.

(** X6.  On the web the provider is inert: whatever the application calls and
    whatever events arrive, the state stays the one the mount effect left
    (nothing granted, nothing denied, not loading) and the SDK is never
    called. *)
Theorem web_is_inert (cfg : Config) (sdk : SDK) (actions : list action) :
  isWeb cfg = true ->
  run cfg sdk actions
    = {| hasPermission := false; permissionDenied := false; loading := false;
         lastNotification := None; sdk_calls := []; listeners := [];
         console := [] |}.
Proof.
  intros Hweb. unfold run.
  assert ((mount_effect cfg sdk mounted).2
          = {| hasPermission := false; permissionDenied := false; loading := false;
               lastNotification := None; sdk_calls := []; listeners := [];
               console := [] |}) as ->.
  { unfold mount_effect. rewrite Hweb. reflexivity. }
  induction actions as [|a actions IH]; [reflexivity|].
  cbn [foldl]. rewrite <- IH at 2. f_equal.
  destruct a; cbn [step]; unfold requestPermission, sendTag, deleteTag;
    rewrite ?Hweb; reflexivity.
Qed.

Lemma web_is_inert_witness :
  run ClientSamples.web_app ClientSamples.sdk_granting
    [ CallRequestPermission; CallSendTag "notify_updates" "true";
      FirePermissionChange true; CallDeleteTag "notify_updates" ]
    = {| hasPermission := false; permissionDenied := false; loading := false;
         lastNotification := None; sdk_calls := []; listeners := [];
         console := [] |}.
Proof.
  exact (web_is_inert ClientSamples.web_app ClientSamples.sdk_granting _ eq_refl).
Defined.

(** X7.  Once the mount effect has run, [loading] is never set again. *)
Theorem loading_stays_cleared (cfg : Config) (sdk : SDK) (actions : list action) :
  loading (run cfg sdk actions) = false.
Proof.
  unfold run.
  assert (loading (mount_effect cfg sdk mounted).2 = false) as Hmount
    by (run; cases; reflexivity).
  revert Hmount. generalize (mount_effect cfg sdk mounted).2.
  induction actions as [|a actions IH]; intros s Hs; [exact Hs|].
  cbn [foldl]. apply IH.
  destruct a; cbn [step]; unfold listening.
  - run. cases; exact Hs.
  - run. cases; exact Hs.
  - run. cases; exact Hs.
  - case_bool_decide; [|exact Hs]. run. exact Hs.
  - case_bool_decide; [|exact Hs]. run. cases; exact Hs.
Qed.

(** X8.  The mount effect asks the SDK in a fixed order and stops at the first
    failure: [initialize] with the configured identifier comes first, and
    the calls made are a prefix of initialize, hasPermission, and the two
    [addEventListener].  [hasPermission] is [true] afterwards only if the
    SDK reported so.  Whichever of the four calls throws first is the last
    call made: the exception is written to the console, and only the
    listeners registered before it are in place. *)
Theorem initialization_order (cfg : Config) (sdk : SDK) :
  isWeb cfg = false -> ONESIGNAL_APP_ID cfg <> "" ->
  let id := ONESIGNAL_APP_ID cfg in
  let s := (mount_effect cfg sdk mounted).2 in
  let c1 := initialize id in
  let c2 := Notifications_hasPermission in
  let c3 := Notifications_addEventListener "foregroundWillDisplay" in
  let c4 := Notifications_addEventListener "permissionChange" in
  let reported (e : thrown) :=
    last (console s)
      = Some {| console_stream := error;
                console_args := [ VStr "[OneSignal] Failed to initialize:";
                                  value_of_thrown e ] |} in
  (head (sdk_calls s) = Some c1 /\
   sdk_calls s `prefix_of` [c1; c2; c3; c4] /\
   listeners s `prefix_of` ["foregroundWillDisplay"; "permissionChange"] /\
   (hasPermission s = true -> answer_bool sdk [c1] c2 = Normal true)) /\
  (forall e : thrown,
     answer_unit sdk [] c1 = Throw e ->
     sdk_calls s = [c1] /\ listeners s = [] /\ hasPermission s = false /\
     reported e) /\
  (forall e : thrown,
     answer_unit sdk [] c1 = Normal tt ->
     answer_bool sdk [c1] c2 = Throw e ->
     sdk_calls s = [c1; c2] /\ listeners s = [] /\ hasPermission s = false /\
     reported e) /\
  (forall (granted : bool) (e : thrown),
     answer_unit sdk [] c1 = Normal tt ->
     answer_bool sdk [c1] c2 = Normal granted ->
     answer_unit sdk [c1; c2] c3 = Throw e ->
     sdk_calls s = [c1; c2; c3] /\ listeners s = [] /\ hasPermission s = granted /\
     reported e) /\
  (forall (granted : bool) (e : thrown),
     answer_unit sdk [] c1 = Normal tt ->
     answer_bool sdk [c1] c2 = Normal granted ->
     answer_unit sdk [c1; c2] c3 = Normal tt ->
     answer_unit sdk [c1; c2; c3] c4 = Throw e ->
     sdk_calls s = [c1; c2; c3; c4] /\ listeners s = ["foregroundWillDisplay"] /\
     hasPermission s = granted /\ reported e).
Proof.
  intros Hweb Hid id s c1 c2 c3 c4 reported. subst reported s c1 c2 c3 c4 id.
  apply String.eqb_neq in Hid. split; [|split; [|split; [|split]]].
  - run. rewrite Hweb, Hid. cbn.
    destruct (answer_unit sdk [] _) as [[]|e0]; cbn.
    2: { repeat split; [by eexists | by eexists | discriminate]. }
    destruct (DEV cfg); cbn;
      (destruct (answer_bool sdk _ _) as [b|e1] eqn:Hb; cbn;
       [| repeat split; [by eexists | by eexists | discriminate] ];
       destruct (answer_unit sdk _ (Notifications_addEventListener "foregroundWillDisplay"))
         as [[]|e2]; cbn;
       [| repeat split; [by eexists | by eexists | by intros ->] ];
       destruct (answer_unit sdk _ (Notifications_addEventListener "permissionChange"))
         as [[]|e3]; cbn;
       repeat split; try (by eexists); by intros ->).
  - intros e H1. run. rewrite Hweb, Hid. cbn. rewrite H1. cbn. repeat split.
  - intros e H1 H2. run. rewrite Hweb, Hid. cbn. rewrite H1. cbn.
    destruct (DEV cfg); cbn; rewrite H2; cbn; repeat split.
  - intros granted e H1 H2 H3. run. rewrite Hweb, Hid. cbn. rewrite H1. cbn.
    destruct (DEV cfg); cbn; rewrite H2; cbn; rewrite H3; cbn; repeat split.
  - intros granted e H1 H2 H3 H4. run. rewrite Hweb, Hid. cbn. rewrite H1. cbn.
    destruct (DEV cfg); cbn; rewrite H2; cbn; rewrite H3; cbn; rewrite H4; cbn;
      repeat split.
Qed.

Lemma initialization_order_witness :
  (let s := (mount_effect ClientSamples.ios_app ClientSamples.sdk_broken mounted).2 in
   sdk_calls s = [initialize "84bd5859-82bd-44dd-8a2e-c7e1ccca59f9"] /\
   listeners s = [] /\ hasPermission s = false) /\
  (let s := (mount_effect ClientSamples.ios_app MoreSamples.sdk_without_events
               mounted).2 in
   sdk_calls s = [ initialize "84bd5859-82bd-44dd-8a2e-c7e1ccca59f9";
                   Notifications_hasPermission;
                   Notifications_addEventListener "foregroundWillDisplay" ] /\
   listeners s = [] /\ hasPermission s = true).
Proof.
  split.
  - destruct (initialization_order ClientSamples.ios_app ClientSamples.sdk_broken
                eq_refl ltac:(discriminate)) as (_ & Hfirst & _).
    destruct (Hfirst (ErrorObject "Error" "native module missing") eq_refl)
      as (Hcalls & Hlisteners & Hhas & _).
    exact (conj Hcalls (conj Hlisteners Hhas)).
  - destruct (initialization_order ClientSamples.ios_app MoreSamples.sdk_without_events
                eq_refl ltac:(discriminate)) as (_ & _ & _ & Hthird & _).
    destruct (Hthird true (ErrorObject "Error" "events unavailable")
                eq_refl eq_refl eq_refl)
      as (Hcalls & Hlisteners & Hhas & _).
    exact (conj Hcalls (conj Hlisteners Hhas)).
Defined.

(** X9.  When the four SDK calls of the mount effect succeed, [hasPermission] is
    what the SDK reported, nothing is denied, and both listeners are
    registered. *)
Theorem successful_initialization (cfg : Config) (sdk : SDK) (granted : bool) :
  isWeb cfg = false -> ONESIGNAL_APP_ID cfg <> "" ->
  let id := ONESIGNAL_APP_ID cfg in
  answer_unit sdk [] (initialize id) = Normal tt ->
  answer_bool sdk [initialize id] Notifications_hasPermission = Normal granted ->
  answer_unit sdk [initialize id; Notifications_hasPermission]
    (Notifications_addEventListener "foregroundWillDisplay") = Normal tt ->
  answer_unit sdk
    [ initialize id; Notifications_hasPermission;
      Notifications_addEventListener "foregroundWillDisplay" ]
    (Notifications_addEventListener "permissionChange") = Normal tt ->
  let s := (mount_effect cfg sdk mounted).2 in
  returns (mount_effect cfg sdk mounted) /\
  hasPermission s = granted /\ permissionDenied s = false /\ loading s = false /\
  lastNotification s = None /\
  sdk_calls s = [ initialize id; Notifications_hasPermission;
                  Notifications_addEventListener "foregroundWillDisplay";
                  Notifications_addEventListener "permissionChange" ] /\
  listeners s = ["foregroundWillDisplay"; "permissionChange"].
Proof.
  intros Hweb Hid id H1 H2 H3 H4 s. subst s id. apply String.eqb_neq in Hid.
  run. rewrite Hweb, Hid. cbn. rewrite H1. cbn.
  destruct (DEV cfg); cbn; rewrite H2; cbn; rewrite H3; cbn; rewrite H4; cbn;
    repeat split.
Qed.

Lemma successful_initialization_witness :
  let s := (mount_effect ClientSamples.ios_app ClientSamples.sdk_refusing mounted).2 in
  hasPermission s = false /\ permissionDenied s = false /\ loading s = false /\
  listeners s = ["foregroundWillDisplay"; "permissionChange"].
Proof.
  destruct (successful_initialization ClientSamples.ios_app ClientSamples.sdk_refusing
              false eq_refl ltac:(discriminate) eq_refl eq_refl eq_refl eq_refl)
    as (_ & Hhas & Hdenied & Hloading & _ & _ & Hlisteners).
  exact (conj Hhas (conj Hdenied (conj Hloading Hlisteners))).
Defined.

(** X10.  When [OneSignal.initialize] throws, the mount effect still returns: the
    exception is written to the console, nothing else is asked of the SDK,
    no listener is registered and [hasPermission] stays [false]. *)
Theorem failed_initialization (cfg : Config) (sdk : SDK) (e : thrown) :
  isWeb cfg = false -> ONESIGNAL_APP_ID cfg <> "" ->
  answer_unit sdk [] (initialize (ONESIGNAL_APP_ID cfg)) = Throw e ->
  mount_effect cfg sdk mounted
    = (Normal tt,
       {| hasPermission := false; permissionDenied := false; loading := false;
          lastNotification := None;
          sdk_calls := [initialize (ONESIGNAL_APP_ID cfg)];
          listeners := [];
          console := [ {| console_stream := error;
                          console_args := [ VStr "[OneSignal] Failed to initialize:";
                                            value_of_thrown e ] |} ] |}).
Proof.
  intros Hweb Hid He. apply String.eqb_neq in Hid.
  run. rewrite Hweb, Hid. cbn. rewrite He. reflexivity.
Qed.

Lemma failed_initialization_witness :
  mount_effect ClientSamples.ios_app ClientSamples.sdk_broken mounted
    = (Normal tt,
       {| hasPermission := false; permissionDenied := false; loading := false;
          lastNotification := None;
          sdk_calls := [initialize "84bd5859-82bd-44dd-8a2e-c7e1ccca59f9"];
          listeners := [];
          console := [ {| console_stream := error;
                          console_args :=
                            [ VStr "[OneSignal] Failed to initialize:";
                              VObj [ ("type", VStr "Error");
                                     ("message", VStr "native module missing") ] ] |} ] |}).
Proof.
  exact (failed_initialization ClientSamples.ios_app ClientSamples.sdk_broken
           (ErrorObject "Error" "native module missing")
           eq_refl ltac:(discriminate) eq_refl).
Defined.

(** X11.  The foreground listener is not guarded.  When [display()] returns, the
    notification becomes [lastNotification], replacing the one before; when
    [display()] throws, the exception leaves the listener and
    [lastNotification] is not touched. *)
Theorem foreground_listener_unguarded (sdk : SDK) (n : Notification) (s : State) :
  (answer_unit sdk (sdk_calls s) (Notification_display n) = Normal tt ->
   returns (on_foregroundWillDisplay sdk n s) /\
   lastNotification (on_foregroundWillDisplay sdk n s).2 = Some n) /\
  (forall e : thrown,
     answer_unit sdk (sdk_calls s) (Notification_display n) = Throw e ->
     (on_foregroundWillDisplay sdk n s).1 = Throw e /\
     lastNotification (on_foregroundWillDisplay sdk n s).2 = lastNotification s).
Proof.
  split.
  - intros H. run. rewrite H. cbn. split; [exact I | reflexivity].
  - intros e H. run. rewrite H. cbn. split; reflexivity.
Qed.

Lemma foreground_listener_unguarded_witness :
  lastNotification
    (on_foregroundWillDisplay ClientSamples.sdk_granting
       MoreSamples.greeting mounted).2 = Some MoreSamples.greeting /\
  (on_foregroundWillDisplay ClientSamples.sdk_broken MoreSamples.greeting mounted).1
    = Throw (ErrorObject "Error" "native module missing") /\
  lastNotification
    (on_foregroundWillDisplay ClientSamples.sdk_broken
       MoreSamples.greeting mounted).2 = None.
Proof.
  destruct (foreground_listener_unguarded ClientSamples.sdk_granting
              MoreSamples.greeting mounted) as [Hshown _].
  destruct (foreground_listener_unguarded ClientSamples.sdk_broken
              MoreSamples.greeting mounted) as [_ Hfailed].
  exact (conj (proj2 (Hshown eq_refl)) (Hfailed _ eq_refl)).
Defined.

(** X12.  A failed permission request is not a denial.  When the SDK call fails,
    [requestPermission] returns [false] and writes the exception to the
    console, and [hasPermission], [permissionDenied] and the rest of the
    state stay as they were. *)
Theorem failed_request_is_not_a_denial
    (cfg : Config) (sdk : SDK) (s : State) (e : thrown) :
  isWeb cfg = false ->
  answer_bool sdk (sdk_calls s) (Notifications_requestPermission true) = Throw e ->
  requestPermission cfg sdk s
    = (Normal false,
       {| hasPermission := hasPermission s; permissionDenied := permissionDenied s;
          loading := loading s; lastNotification := lastNotification s;
          sdk_calls := (sdk_calls s ++ [Notifications_requestPermission true])%list;
          listeners := listeners s;
          console := (console s ++
                      [ {| console_stream := error;
                           console_args := [ VStr "[OneSignal] Permission request failed:";
                                             value_of_thrown e ] |} ])%list |}).
Proof.
  intros Hweb He. run. rewrite Hweb. cbn. rewrite He. reflexivity.
Qed.

Lemma failed_request_is_not_a_denial_witness :
  (requestPermission ClientSamples.ios_app ClientSamples.sdk_broken mounted).1
    = Normal false /\
  permissionDenied
    (requestPermission ClientSamples.ios_app ClientSamples.sdk_broken mounted).2 = false.
Proof.
  rewrite (failed_request_is_not_a_denial ClientSamples.ios_app ClientSamples.sdk_broken
             mounted (ErrorObject "Error" "native module missing") eq_refl eq_refl).
  split; reflexivity.
Defined.

(** X13.  [sendTag key value] and then [deleteTag key], off the web: the SDK is
    asked to add the tag and then to remove it, in that order and whether or
    not the first call failed; none of the provider's state cells
    changes. *)
Theorem tags_reach_the_sdk_only
    (cfg : Config) (sdk : SDK) (key value : string) (s : State) :
  isWeb cfg = false ->
  let s' := (deleteTag cfg sdk key (sendTag cfg sdk key value s).2).2 in
  sdk_calls s' = (sdk_calls s ++ [User_addTag key value; User_removeTag key])%list /\
  hasPermission s' = hasPermission s /\ permissionDenied s' = permissionDenied s /\
  loading s' = loading s /\ lastNotification s' = lastNotification s /\
  listeners s' = listeners s.
Proof.
  intros Hweb s'. subst s'. run. rewrite Hweb. cbn.
  destruct (answer_unit sdk (sdk_calls s) _) as [[]|e1]; cbn;
    destruct (answer_unit sdk _ (User_removeTag key)) as [[]|e2]; cbn;
    rewrite <- app_assoc; repeat split.
Qed.

Lemma tags_reach_the_sdk_only_witness :
  sdk_calls
    (deleteTag ClientSamples.ios_app ClientSamples.sdk_broken "notify_updates"
       (sendTag ClientSamples.ios_app ClientSamples.sdk_broken
          "notify_updates" "true" mounted).2).2
    = [User_addTag "notify_updates" "true"; User_removeTag "notify_updates"].
Proof.
  exact (proj1 (tags_reach_the_sdk_only ClientSamples.ios_app ClientSamples.sdk_broken
                  "notify_updates" "true" mounted eq_refl)).
Defined.

End NotificationContextMore.

(** ** The API client: properties *)

Module ApiSpec.

Import Api.

#[local] Arguments pretty : simpl never.
#[local] Arguments to_string : simpl never.
#[local] Arguments String.append : simpl never.

Ltac run :=
  unfold sendNotification, apiPost, apiGet, apiPut, apiDelete, apiCall,
    await_fetch, console_write, returns;
  unfold try_catch, throw, mbind, M_bind, mret, M_ret, bind, ret, modify, lift;
  cbn.

Ltac branches :=
  repeat match goal with
    | |- context [fetch ?w ?u ?i] => destruct (fetch w u i) as [?|?] eqn:?; cbn
    | |- context [Notifications.json ?r] =>
        destruct (Notifications.json r) as [?|?] eqn:?; cbn
    | |- context [Notifications.ok ?r] => destruct (Notifications.ok r) eqn:?; cbn
    | |- context [get ?d ?k] => destruct (get d k) as [?|?] eqn:?; cbn
    | |- context [match ?e with ErrorObject _ _ => _ | Thrown _ => _ end] =>
        destruct e; cbn
    end.

(** X14.  Whatever goes wrong, [apiCall] rejects with an [Error].  An
    [Error] with which [fetch] or [response.json()] rejects is rethrown as
    it is; anything else they reject with is replaced by
    [Error("Network request failed")]. *)
Theorem apiCall_rejects_with_an_Error
    (cfg : Config) (w : World) (endpoint : string) (options : Options) (s : State) :
  let url := BACKEND_URL cfg ++ endpoint in
  let init :=
    {| init_method := method options; init_body := body options;
       init_headers := merged_headers options |} in
  let result := (apiCall cfg w endpoint options s).1 in
  (forall e : thrown,
     result = Throw e -> exists name message : string, e = ErrorObject name message) /\
  (forall name message : string,
     fetch w url init = Throw (ErrorObject name message) ->
     result = Throw (ErrorObject name message)) /\
  (forall (r : Notifications.Response) (name message : string),
     fetch w url init = Normal r ->
     Notifications.json r = Throw (ErrorObject name message) ->
     result = Throw (ErrorObject name message)) /\
  (forall v : value,
     fetch w url init = Throw (Thrown v) ->
     result = Throw (ErrorObject "Error" "Network request failed")) /\
  (forall (r : Notifications.Response) (v : value),
     fetch w url init = Normal r ->
     Notifications.json r = Throw (Thrown v) ->
     result = Throw (ErrorObject "Error" "Network request failed")).
Proof.
  cbv zeta. split; [|split; [|split; [|split]]].
  - intros e. run. branches; intros [= <-]; eauto.
  - intros name message Hfetch. run. rewrite Hfetch. reflexivity.
  - intros r name message Hfetch Hjson. run. rewrite Hfetch. cbn. rewrite Hjson.
    reflexivity.
  - intros v Hfetch. run. rewrite Hfetch. reflexivity.
  - intros r v Hfetch Hjson. run. rewrite Hfetch. cbn. rewrite Hjson. reflexivity.
Qed.

Lemma apiCall_rejects_with_an_Error_witness :
  (apiCall MoreSamples.app MoreSamples.backend_offline "/api/items" no_options
     initial).1
    = Throw (ErrorObject "TypeError" "Failed to fetch") /\
  (apiCall MoreSamples.app MoreSamples.backend_throws_text "/api/items" no_options
     initial).1
    = Throw (ErrorObject "Error" "Network request failed") /\
  exists name message : string,
    ErrorObject "Error" "Network request failed" = ErrorObject name message.
Proof.
  destruct (apiCall_rejects_with_an_Error MoreSamples.app MoreSamples.backend_offline
              "/api/items" no_options initial) as (_ & Hrethrown & _).
  destruct (apiCall_rejects_with_an_Error MoreSamples.app MoreSamples.backend_throws_text
              "/api/items" no_options initial) as (Hkind & _ & _ & Hreplaced & _).
  split; [exact (Hrethrown "TypeError" "Failed to fetch" eq_refl)|].
  split; [exact (Hreplaced (VStr "offline") eq_refl)|].
  exact (Hkind _ (Hreplaced (VStr "offline") eq_refl)).
Defined.

(** X15.  [apiCall] resolves exactly when the request was answered, the body
    parsed as JSON and the status was in 200-299; it then resolves to the
    parsed body. *)
Theorem apiCall_resolves_iff
    (cfg : Config) (w : World) (endpoint : string) (options : Options)
    (s : State) (data : value) :
  (apiCall cfg w endpoint options s).1 = Normal data <->
  exists r : Notifications.Response,
    fetch w (BACKEND_URL cfg ++ endpoint)
      {| init_method := method options; init_body := body options;
         init_headers := merged_headers options |} = Normal r /\
    Notifications.json r = Normal data /\
    200 <= Notifications.status r <= 299.
Proof.
  split.
  - run. branches; intros [= <-].
    eexists. split; [reflexivity|]. split; [assumption|].
    by apply NotificationsSpec.ok_iff.
  - intros (r & Hfetch & Hjson & Hstatus). apply NotificationsSpec.ok_iff in Hstatus.
    run. rewrite Hfetch. cbn. rewrite Hjson. cbn. rewrite Hstatus. reflexivity.
Qed.

Lemma apiCall_resolves_iff_witness :
  (apiCall MoreSamples.app MoreSamples.backend_accepts "/api/notifications/send"
     no_options initial).1
    = Normal (VObj [("success", VBool true); ("notificationId", VStr "abc123")]).
Proof.
  apply (apiCall_resolves_iff MoreSamples.app MoreSamples.backend_accepts).
  eexists. split; [reflexivity|]. split; [reflexivity|]. cbn. lia.
Defined.

Lemma apiCall_requests
    (cfg : Config) (w : World) (endpoint : string) (options : Options) (s : State) :
  requests (apiCall cfg w endpoint options s).2
    = (requests s ++
       [ ((BACKEND_URL cfg ++ endpoint)%string,
          {| init_method := method options; init_body := body options;
             init_headers := merged_headers options |}) ])%list.
Proof. run. branches; reflexivity. Qed.

(** X16.  Every call makes exactly one request, whatever its outcome: to
    [BACKEND_URL] followed by the endpoint, with the method and body of
    [options], and with [Content-Type: application/json] unless [options]
    has its own.  Nothing is retried. *)
Theorem apiCall_makes_one_request
    (cfg : Config) (w : World) (endpoint : string) (options : Options) (s : State) :
  requests (apiCall cfg w endpoint options s).2
    = (requests s ++
       [ ((BACKEND_URL cfg ++ endpoint)%string,
          {| init_method := method options; init_body := body options;
             init_headers := merged_headers options |}) ])%list /\
  merged_headers options !! "Content-Type"
    = Some (default "application/json"
              (default ∅ (headers options) !! "Content-Type")).
Proof.
  split.
  - apply apiCall_requests.
  - unfold merged_headers. rewrite lookup_union.
    destruct (default ∅ (headers options) !! "Content-Type"); reflexivity.
Qed.

(** X17.  Without a [backendUrl] in the configuration the client only warns at
    load: a call is still made, to the endpoint path alone. *)
Theorem missing_backend_url_is_only_warned
    (cfg : Config) (w : World) (endpoint : string) (options : Options) :
  extra cfg !! "backendUrl" = None ->
  module_load cfg initial
    = (Normal tt,
       {| console :=
            [ {| NotificationContext.console_stream := NotificationContext.warn;
                 NotificationContext.console_args :=
                   [ VStr "[API] Backend URL not configured. Please add backendUrl to app.json extra." ] |} ];
          requests := [] |}) /\
  requests (apiCall cfg w endpoint options initial).2
    = [ (endpoint,
         {| init_method := method options; init_body := body options;
            init_headers := merged_headers options |}) ].
Proof.
  intros Hurl.
  assert (BACKEND_URL cfg = "") as Hempty by (unfold BACKEND_URL; rewrite Hurl; reflexivity).
  split.
  - unfold module_load. rewrite Hempty. reflexivity.
  - rewrite (apiCall_requests cfg w endpoint options initial).
    rewrite Hempty. reflexivity.
Qed.

Lemma missing_backend_url_is_only_warned_witness :
  requests (apiCall MoreSamples.app_without_backend MoreSamples.backend_accepts
              "/api/items" no_options initial).2
    = [ ("/api/items",
         {| init_method := None; init_body := None;
            init_headers := merged_headers no_options |}) ].
Proof.
  exact (proj2 (missing_backend_url_is_only_warned MoreSamples.app_without_backend
                  MoreSamples.backend_accepts "/api/items" no_options eq_refl)).
Defined.

(** X18.  A response with a status outside 200-299 and a JSON body makes
    [apiCall] reject with an [Error] whose message is the body's [error]
    member when that is a non-empty string, and
    ["Request failed with status <status>"] when the body is an object
    without an [error] member. *)
Theorem apiCall_error_message
    (cfg : Config) (w : World) (endpoint : string) (options : Options) (s : State)
    (r : Notifications.Response) (members : list (string * value)) :
  fetch w (BACKEND_URL cfg ++ endpoint)
    {| init_method := method options; init_body := body options;
       init_headers := merged_headers options |} = Normal r ->
  ~ (200 <= Notifications.status r <= 299) ->
  Notifications.json r = Normal (VObj members) ->
  (forall err : string,
     assoc "error" members = Some (VStr err) -> err <> "" ->
     (apiCall cfg w endpoint options s).1 = Throw (ErrorObject "Error" err)) /\
  (assoc "error" members = None ->
   (apiCall cfg w endpoint options s).1
     = Throw (ErrorObject "Error"
                ("Request failed with status " ++ pretty (Notifications.status r)))).
Proof.
  intros Hfetch Hstatus Hjson. apply NotificationsSpec.not_ok_iff in Hstatus.
  split.
  - intros err Herr Hne. run. rewrite Hfetch. cbn. rewrite Hjson. cbn.
    rewrite Hstatus. cbn. rewrite Herr. cbn.
    apply String.eqb_neq in Hne. rewrite Hne. reflexivity.
  - intros Herr. run. rewrite Hfetch. cbn. rewrite Hjson. cbn.
    rewrite Hstatus. cbn. rewrite Herr. reflexivity.
Qed.

Lemma apiCall_error_message_witness :
  (apiCall MoreSamples.app MoreSamples.backend_unconfigured "/api/notifications/send"
     no_options initial).1
    = Throw (ErrorObject "Error" "OneSignal not configured") /\
  (apiCall MoreSamples.app MoreSamples.backend_not_found "/api/items"
     no_options initial).1
    = Throw (ErrorObject "Error" "Request failed with status 404").
Proof.
  split.
  - refine (proj1 (apiCall_error_message MoreSamples.app MoreSamples.backend_unconfigured
                     "/api/notifications/send" no_options initial _
                     [("success", VBool false); ("error", VStr "OneSignal not configured")]
                     eq_refl _ eq_refl) _ eq_refl _); [cbn; lia | discriminate].
  - refine (proj2 (apiCall_error_message MoreSamples.app MoreSamples.backend_not_found
                     "/api/items" no_options initial _ [] eq_refl _ eq_refl) eq_refl).
    cbn. lia.
Defined.

(** X19.  The body is parsed before the status is looked at.  A response whose
    body is not JSON makes [apiCall] reject, even when its status is in
    200-299 (an empty 204 answer, say), and the status is never reported. *)
Theorem unparsable_body_rejects
    (cfg : Config) (w : World) (endpoint : string) (options : Options) (s : State)
    (r : Notifications.Response) (name message : string) :
  fetch w (BACKEND_URL cfg ++ endpoint)
    {| init_method := method options; init_body := body options;
       init_headers := merged_headers options |} = Normal r ->
  Notifications.json r = Throw (ErrorObject name message) ->
  (apiCall cfg w endpoint options s).1 = Throw (ErrorObject name message).
Proof.
  intros Hfetch Hjson. run. rewrite Hfetch. cbn. rewrite Hjson. reflexivity.
Qed.

Lemma unparsable_body_rejects_witness :
  (apiCall MoreSamples.app MoreSamples.backend_no_content "/api/items/7"
     {| method := Some "DELETE"; body := None; headers := None |} initial).1
    = Throw (ErrorObject "SyntaxError" "Unexpected end of JSON input").
Proof.
  exact (unparsable_body_rejects MoreSamples.app MoreSamples.backend_no_content
           "/api/items/7" {| method := Some "DELETE"; body := None; headers := None |}
           initial _ "SyntaxError" "Unexpected end of JSON input" eq_refl eq_refl).
Defined.

(** [sendNotification] makes one POST to
    [BACKEND_URL/api/notifications/send] whose body is [{title, message}]. *)
Theorem sendNotification_request
    (cfg : Config) (w : World) (data : SendNotificationRequest) :
  requests (sendNotification cfg w data initial).2
    = [ (BACKEND_URL cfg ++ "/api/notifications/send",
         {| init_method := Some "POST";
            init_body := Some (VObj [ ("title", VStr (title data));
                                      ("message", VStr (message data)) ]);
            init_headers := {[ "Content-Type" := "application/json" ]} |}) ].
Proof.
  unfold sendNotification, apiPost.
  rewrite (apiCall_requests cfg w _ _ initial). cbn.
  unfold merged_headers. cbn. rewrite (left_id_L ∅ (∪)). reflexivity.
Qed.

End ApiSpec.

(** ** The send button: properties *)

Module SendNotificationButtonSpec.

Import SendNotificationButton.

#[local] Arguments pretty : simpl never.
#[local] Arguments to_string : simpl never.
#[local] Arguments String.append : simpl never.
#[local] Arguments Api.merged_headers : simpl never.

Ltac run :=
  unfold handlePress, showModal, console_write, in_api, setLoading, setModalVisible,
    setModalConfig, Api.sendNotification, Api.apiPost, Api.apiCall, Api.await_fetch,
    Api.console_write, returns;
  unfold try_finally, try_catch, throw, mbind, M_bind, mret, M_ret, bind, ret, modify,
    lift;
  cbn.

Ltac branches :=
  repeat match goal with
    | |- context [Api.fetch ?w ?u ?i] => destruct (Api.fetch w u i) as [?|?] eqn:?; cbn
    | |- context [Notifications.json ?r] =>
        destruct (Notifications.json r) as [?|?] eqn:?; cbn
    | |- context [Notifications.ok ?r] => destruct (Notifications.ok r) eqn:?; cbn
    | |- context [get ?d ?k] => destruct (get d k) as [?|?] eqn:?; cbn
    | |- context [match ?e with ErrorObject _ _ => _ | Thrown _ => _ end] =>
        destruct e; cbn
    end.

(** The request a press sends. *)
Lemma merged_headers_default :
  Api.merged_headers
    {| Api.method := Some "POST"; Api.body := Some (Api.request_object test_notification);
       Api.headers := None |}
    = {[ "Content-Type" := "application/json" ]}.
Proof. unfold Api.merged_headers. cbn. by rewrite (left_id_L ∅ (∪)). Qed.

(** X20.  A press always settles: [handlePress] returns, the spinner is off
    again, a modal is up, and exactly one request was made, whatever the
    backend did. *)
Theorem press_always_settles (cfg : Api.Config) (w : Api.World) (s : State) :
  let s' := (handlePress cfg w s).2 in
  returns (handlePress cfg w s) /\
  loading s' = false /\ modalVisible s' = true /\
  (modalConfig s').(title)
    = match (modalConfig s').(type) with success => "Success" | error => "Error" end /\
  Api.requests (api s')
    = (Api.requests (api s) ++
       [ ((Api.BACKEND_URL cfg ++ "/api/notifications/send")%string,
          {| Api.init_method := Some "POST";
             Api.init_body := Some (Api.request_object test_notification);
             Api.init_headers := {[ "Content-Type" := "application/json" ]} |}) ])%list.
Proof.
  rewrite <- merged_headers_default. run. branches; repeat split.
Qed.

(** X21.  The modal says "Success" exactly when the backend answered with a
    status in 200-299 and a JSON body other than [null]; in every other
    case it says "Error". *)
Theorem success_modal_iff (cfg : Api.Config) (w : Api.World) (s : State) :
  (modalConfig (handlePress cfg w s).2).(type) = success <->
  exists (r : Notifications.Response) (data : value),
    Api.fetch w (Api.BACKEND_URL cfg ++ "/api/notifications/send")
      {| Api.init_method := Some "POST";
         Api.init_body := Some (Api.request_object test_notification);
         Api.init_headers := {[ "Content-Type" := "application/json" ]} |} = Normal r /\
    200 <= Notifications.status r <= 299 /\
    Notifications.json r = Normal data /\
    data <> VNull /\ data <> VUndefined.
Proof.
  rewrite <- merged_headers_default. split.
  - run. branches; try discriminate; intros _.
    match goal with
    | Hok : Notifications.ok ?r = true, Hj : Notifications.json ?r = Normal ?d,
      Hg : get ?d _ = Normal _ |- _ =>
        exists r, d; apply NotificationsSpec.ok_iff in Hok;
        split; [reflexivity|]; split; [exact Hok|]; split; [exact Hj|];
        split; intros ->; discriminate
    end.
  - intros (r & data & Hfetch & Hstatus & Hjson & Hnull & Hundef).
    apply NotificationsSpec.ok_iff in Hstatus.
    run. rewrite Hfetch. cbn. rewrite Hjson. cbn. rewrite Hstatus. cbn.
    destruct data; try congruence; reflexivity.
Qed.

Lemma success_modal_iff_witness :
  (modalConfig (handlePress MoreSamples.app MoreSamples.backend_accepts mounted).2).(type)
    = success.
Proof.
  apply (success_modal_iff MoreSamples.app MoreSamples.backend_accepts mounted).
  eexists _, _. split; [reflexivity|]. split; [cbn; lia|]. split; [reflexivity|].
  split; discriminate.
Defined.

(** X22.  What the "Success" modal reads: the fixed sentence, followed by the
    notification id on a line of its own when the backend's answer has a
    non-empty one. *)
Theorem success_modal_text
    (cfg : Api.Config) (w : Api.World) (s : State)
    (r : Notifications.Response) (members : list (string * value)) :
  Api.fetch w (Api.BACKEND_URL cfg ++ "/api/notifications/send")
    {| Api.init_method := Some "POST";
       Api.init_body := Some (Api.request_object test_notification);
       Api.init_headers := {[ "Content-Type" := "application/json" ]} |} = Normal r ->
  200 <= Notifications.status r <= 299 ->
  Notifications.json r = Normal (VObj members) ->
  (forall id : string,
     assoc "notificationId" members = Some (VStr id) -> id <> "" ->
     modalConfig (handlePress cfg w s).2
       = {| title := "Success";
            message := "Notification sent successfully! ðŸŽ‰" ++ LF ++ LF
                         ++ "Notification ID: " ++ id;
            type := success |}) /\
  (assoc "notificationId" members = None ->
   modalConfig (handlePress cfg w s).2
     = {| title := "Success"; message := "Notification sent successfully! ðŸŽ‰";
          type := success |}).
Proof.
  rewrite <- merged_headers_default. intros Hfetch Hstatus Hjson.
  apply NotificationsSpec.ok_iff in Hstatus. split.
  - intros id Hid Hne. apply String.eqb_neq in Hne.
    run. rewrite Hfetch. cbn. rewrite Hjson. cbn. rewrite Hstatus. cbn.
    rewrite Hid. cbn. rewrite Hne. reflexivity.
  - intros Hid. run. rewrite Hfetch. cbn. rewrite Hjson. cbn. rewrite Hstatus. cbn.
    rewrite Hid. cbn. reflexivity.
Qed.

Lemma success_modal_text_witness :
  message (modalConfig (handlePress MoreSamples.app MoreSamples.backend_accepts mounted).2)
    = "Notification sent successfully! ðŸŽ‰" ++ LF ++ LF ++ "Notification ID: abc123" /\
  message (modalConfig
             (handlePress MoreSamples.app MoreSamples.backend_accepts_unnamed mounted).2)
    = "Notification sent successfully! ðŸŽ‰".
Proof.
  split.
  - rewrite (proj1 (success_modal_text MoreSamples.app MoreSamples.backend_accepts mounted
                      _ [("success", VBool true); ("notificationId", VStr "abc123")]
                      eq_refl ltac:(cbn; lia) eq_refl) "abc123" eq_refl ltac:(discriminate)).
    reflexivity.
  - rewrite (proj2 (success_modal_text MoreSamples.app MoreSamples.backend_accepts_unnamed
                      mounted _ [("success", VBool true)]
                      eq_refl ltac:(cbn; lia) eq_refl) eq_refl).
    reflexivity.
Defined.

(** X23.  What the "Error" modal reads.  When the request itself fails with an
    [Error], its message; when it fails with anything else, the API
    client's ["Network request failed"] (the button's own fallback text is
    not reached); when the backend answers outside 200-299 with a JSON
    object whose [error] is a non-empty string, that string. *)
Theorem error_modal_text (cfg : Api.Config) (w : Api.World) (s : State) :
  let url := Api.BACKEND_URL cfg ++ "/api/notifications/send" in
  let init :=
    {| Api.init_method := Some "POST";
       Api.init_body := Some (Api.request_object test_notification);
       Api.init_headers := {[ "Content-Type" := "application/json" ]} |} in
  let shown := modalConfig (handlePress cfg w s).2 in
  (forall name message : string,
     Api.fetch w url init = Throw (ErrorObject name message) ->
     shown = {| title := "Error"; message := message; type := error |}) /\
  (forall v : value,
     Api.fetch w url init = Throw (Thrown v) ->
     shown = {| title := "Error"; message := "Network request failed"; type := error |}) /\
  (forall (r : Notifications.Response) (members : list (string * value)) (err : string),
     Api.fetch w url init = Normal r ->
     ~ (200 <= Notifications.status r <= 299) ->
     Notifications.json r = Normal (VObj members) ->
     assoc "error" members = Some (VStr err) -> err <> "" ->
     shown = {| title := "Error"; message := err; type := error |}).
Proof.
  rewrite <- merged_headers_default. cbv zeta. repeat split.
  - intros name message Hfetch. run. rewrite Hfetch. reflexivity.
  - intros v Hfetch. run. rewrite Hfetch. reflexivity.
  - intros r members err Hfetch Hstatus Hjson Herr Hne.
    apply NotificationsSpec.not_ok_iff in Hstatus. apply String.eqb_neq in Hne.
    run. rewrite Hfetch. cbn. rewrite Hjson. cbn. rewrite Hstatus. cbn.
    rewrite Herr. cbn. rewrite Hne. reflexivity.
Qed.

Lemma error_modal_text_witness :
  modalConfig (handlePress MoreSamples.app MoreSamples.backend_throws_text mounted).2
    = {| title := "Error"; message := "Network request failed"; type := error |} /\
  modalConfig (handlePress MoreSamples.app MoreSamples.backend_unconfigured mounted).2
    = {| title := "Error"; message := "OneSignal not configured"; type := error |}.
Proof.
  split.
  - exact (proj1 (proj2 (error_modal_text MoreSamples.app MoreSamples.backend_throws_text
                           mounted)) (VStr "offline") eq_refl).
  - exact (proj2 (proj2 (error_modal_text MoreSamples.app MoreSamples.backend_unconfigured
                           mounted))
             _ [("success", VBool false); ("error", VStr "OneSignal not configured")]
             "OneSignal not configured" eq_refl ltac:(cbn; lia) eq_refl eq_refl
             ltac:(discriminate)).
Defined.

End SendNotificationButtonSpec.

(** ** The button in front of the relay *)

Module EndToEnd.

Import SendNotificationButton.

#[local] Arguments pretty : simpl never.
#[local] Arguments to_string : simpl never.
#[local] Arguments String.append : simpl never.
#[local] Arguments Api.merged_headers : simpl never.

(** X24.  Let the backend be the relay: the app's request is answered with the
    status the relay's handler set and the JSON object it sent.  Then a
    press shows what the relay replied: "Success" on 200, and otherwise
    "Error" with the relay's error text (or, were that text empty,
    ["Request failed with status <status>"]). *)
Theorem button_reports_the_relay
    (cfg : Api.Config) (aw : Api.World) (rw : Notifications.World) (s : State)
    (r : Notifications.Response) (members : list (string * value)) :
  let asked :=
    {| Notifications.title := VStr (Api.title test_notification);
       Notifications.message := VStr (Api.message test_notification) |} in
  Api.fetch aw (Api.BACKEND_URL cfg ++ "/api/notifications/send")
    {| Api.init_method := Some "POST";
       Api.init_body := Some (Api.request_object test_notification);
       Api.init_headers := {[ "Content-Type" := "application/json" ]} |} = Normal r ->
  Notifications.http_response (Notifications.serve rw asked)
    = (Notifications.status r, Some members) ->
  Notifications.json r = Normal (VObj members) ->
  let shown := modalConfig (handlePress cfg aw s).2 in
  (Notifications.status r = 200 /\ shown.(title) = "Success" /\ shown.(type) = success)
  \/
  (exists err : string,
     Notifications.status r <> 200 /\
     members = [("success", VBool false); ("error", VStr err)] /\
     shown = {| title := "Error";
                message := if String.eqb err ""
                           then "Request failed with status "
                                  ++ pretty (Notifications.status r)
                           else err;
                type := error |}).
Proof.
  intros asked. rewrite <- SendNotificationButtonSpec.merged_headers_default.
  intros Hfetch Hreply Hjson shown. subst shown.
  unfold Notifications.http_response in Hreply.
  destruct (NotificationsMore.reply_cases rw asked)
    as [[id Hrep] | (code & err & Hcode & Hrep)];
    rewrite Hrep in Hreply; cbn in Hreply; simplify_eq.
  - left.
    match goal with H : 200 = Notifications.status r |- _ => symmetry in H; rename H into Hstatus end.
    split; [exact Hstatus|].
    assert (Notifications.ok r = true) as Hok
      by (unfold Notifications.ok; rewrite Hstatus; reflexivity).
    SendNotificationButtonSpec.run. rewrite Hfetch. cbn. rewrite Hjson. cbn.
    rewrite Hok. cbn.
    destruct id; cbn; split; reflexivity.
  - right. exists err.
    assert (Notifications.ok r = false) as Hok
      by (unfold Notifications.ok; destruct Hcode as [-> | ->]; reflexivity).
    split; [destruct Hcode as [-> | ->]; discriminate|].
    split; [reflexivity|].
    SendNotificationButtonSpec.run. rewrite Hfetch. cbn. rewrite Hjson. cbn.
    rewrite Hok. cbn.
    destruct (String.eqb err ""); reflexivity.
Qed.

Lemma button_reports_the_relay_witness :
  modalConfig (handlePress MoreSamples.app MoreSamples.backend_unconfigured mounted).2
    = {| title := "Error"; message := "OneSignal not configured"; type := error |}.
Proof.
  destruct (button_reports_the_relay MoreSamples.app MoreSamples.backend_unconfigured
              Samples.unconfigured mounted _
              [("success", VBool false); ("error", VStr "OneSignal not configured")]
              eq_refl eq_refl eq_refl)
    as [(Hstatus & _) | (err & _ & Hmembers & Hshown)].
  - discriminate Hstatus.
  - injection Hmembers as <-. exact Hshown.
Defined.

End EndToEnd.

(** ** The preferences screen: properties *)

Module PreferencesScreenSpec.

Import PreferencesScreen.

Ltac run :=
  unfold handleCategoryToggle, handleEnableNotifications, open_settings_onPress,
    in_context, setCategories, Alert_alert, Linking_call, returns;
  unfold NotificationContext.requestPermission, NotificationContext.sendTag,
    NotificationContext.deleteTag, NotificationContext.native,
    NotificationContext.setHasPermission, NotificationContext.setPermissionDenied,
    NotificationContext.console_write;
  unfold try_catch, mbind, M_bind, mret, M_ret, bind, ret, modify;
  cbn.

Ltac cases :=
  repeat match goal with
    | |- context [NotificationContext.answer_unit ?sdk ?h ?c] =>
        destruct (NotificationContext.answer_unit sdk h c) as [[]|?]; cbn
    | |- context [NotificationContext.answer_bool ?sdk ?h ?c] =>
        destruct (NotificationContext.answer_bool sdk h c) as [?|?]; cbn
    | |- context [NotificationContext.isWeb ?cfg] =>
        destruct (NotificationContext.isWeb cfg); cbn
    | |- context [NotificationContext.permissionDenied ?c] =>
        destruct (NotificationContext.permissionDenied c); cbn
    end.

Section Screen.

Variable cfg : NotificationContext.Config.
Variable sdk : NotificationContext.SDK.

(** The local flags after a toggle, whatever the SDK did. *)
Lemma toggle_categories (key : string) (value : bool) (s : State) :
  categories (handleCategoryToggle cfg sdk key value s).2
    = <[key := value]> (categories s).
Proof. run. destruct value; cbn; cases; reflexivity. Qed.

(** The SDK calls after a toggle. *)
Lemma toggle_sdk_calls (key : string) (value : bool) (s : State) :
  NotificationContext.sdk_calls (context (handleCategoryToggle cfg sdk key value s).2)
    = if NotificationContext.isWeb cfg then NotificationContext.sdk_calls (context s)
      else (NotificationContext.sdk_calls (context s) ++
            [ if value
              then NotificationContext.User_addTag ("notify_" ++ key) "true"
              else NotificationContext.User_removeTag ("notify_" ++ key) ])%list.
Proof. run. destruct value; cbn; cases; reflexivity. Qed.

End Screen.

(** X25.  Neither handler of the screen throws, whatever the SDK does. *)
Theorem screen_handlers_never_throw
    (cfg : NotificationContext.Config) (sdk : NotificationContext.SDK)
    (key : string) (value : bool) (s : State) :
  returns (handleEnableNotifications cfg sdk s) /\
  returns (handleCategoryToggle cfg sdk key value s).
Proof.
  split; run; [|destruct value; cbn]; cases; exact I.
Qed.

(** X26.  A toggle sets the flag of its category, and of no other, in the
    screen's local state. *)
Theorem toggle_sets_its_flag
    (cfg : NotificationContext.Config) (sdk : NotificationContext.SDK)
    (key : string) (value : bool) (s : State) :
  categories (handleCategoryToggle cfg sdk key value s).2 !! key = Some value /\
  forall other : string,
    other <> key ->
    categories (handleCategoryToggle cfg sdk key value s).2 !! other
      = categories s !! other.
Proof.
  rewrite toggle_categories. split.
  - apply lookup_insert_eq.
  - intros other Hother. by apply lookup_insert_ne.
Qed.

Lemma toggle_sets_its_flag_witness :
  let s := handleCategoryToggle ClientSamples.ios_app ClientSamples.sdk_granting
             "promotions" false (mounted NotificationContext.mounted) in
  categories s.2 !! "promotions" = Some false /\
  categories s.2 !! "updates" = Some true.
Proof.
  destruct (toggle_sets_its_flag ClientSamples.ios_app ClientSamples.sdk_granting
              "promotions" false (mounted NotificationContext.mounted))
    as [Hflag Hothers].
  split; [exact Hflag|].
  rewrite (Hothers "updates" ltac:(discriminate)). reflexivity.
Defined.

(** X27.  Off the web, switching a category on tags the device
    [notify_<key> = "true"], and switching it off removes the tag
    [notify_<key>]: one SDK call each.  On the web a toggle only changes the
    local flag. *)
Theorem toggle_tags_the_device
    (cfg : NotificationContext.Config) (sdk : NotificationContext.SDK)
    (key : string) (s : State) :
  (NotificationContext.isWeb cfg = false ->
   NotificationContext.sdk_calls (context (handleCategoryToggle cfg sdk key true s).2)
     = (NotificationContext.sdk_calls (context s) ++
        [NotificationContext.User_addTag ("notify_" ++ key) "true"])%list /\
   NotificationContext.sdk_calls (context (handleCategoryToggle cfg sdk key false s).2)
     = (NotificationContext.sdk_calls (context s) ++
        [NotificationContext.User_removeTag ("notify_" ++ key)])%list) /\
  (NotificationContext.isWeb cfg = true ->
   forall value : bool, context (handleCategoryToggle cfg sdk key value s).2 = context s).
Proof.
  split; intros Hweb.
  - rewrite !toggle_sdk_calls, Hweb. split; reflexivity.
  - intros value. run. rewrite Hweb. destruct value; reflexivity.
Qed.

Lemma toggle_tags_the_device_witness :
  NotificationContext.sdk_calls
    (context (handleCategoryToggle ClientSamples.ios_app ClientSamples.sdk_granting
                "updates" false (mounted NotificationContext.mounted)).2)
    = [NotificationContext.User_removeTag "notify_updates"] /\
  context (handleCategoryToggle ClientSamples.web_app ClientSamples.sdk_granting
             "updates" false (mounted NotificationContext.mounted)).2
    = NotificationContext.mounted.
Proof.
  split.
  - exact (proj2 (proj1 (toggle_tags_the_device ClientSamples.ios_app
                           ClientSamples.sdk_granting "updates"
                           (mounted NotificationContext.mounted)) eq_refl)).
  - exact (proj2 (toggle_tags_the_device ClientSamples.web_app
                    ClientSamples.sdk_granting "updates"
                    (mounted NotificationContext.mounted)) eq_refl false).
Defined.

(** X28.  Switching a category on and off again leaves its flag off and every
    other flag as it was, and the SDK has been asked to add and then to
    remove the same tag. *)
Theorem toggle_on_then_off
    (cfg : NotificationContext.Config) (sdk : NotificationContext.SDK)
    (key : string) (s : State) :
  NotificationContext.isWeb cfg = false ->
  let s' := (handleCategoryToggle cfg sdk key false
               (handleCategoryToggle cfg sdk key true s).2).2 in
  categories s' = <[key := false]> (categories s) /\
  NotificationContext.sdk_calls (context s')
    = (NotificationContext.sdk_calls (context s) ++
       [ NotificationContext.User_addTag ("notify_" ++ key) "true";
         NotificationContext.User_removeTag ("notify_" ++ key) ])%list.
Proof.
  intros Hweb s'. subst s'. rewrite !toggle_categories, !toggle_sdk_calls, Hweb.
  split.
  - apply insert_insert_eq.
  - by rewrite <- app_assoc.
Qed.

Lemma toggle_on_then_off_witness :
  let s' := (handleCategoryToggle ClientSamples.ios_app ClientSamples.sdk_broken
               "reminders" false
               (handleCategoryToggle ClientSamples.ios_app ClientSamples.sdk_broken
                  "reminders" true (mounted NotificationContext.mounted)).2).2 in
  categories s' !! "reminders" = Some false /\
  NotificationContext.sdk_calls (context s')
    = [ NotificationContext.User_addTag "notify_reminders" "true";
        NotificationContext.User_removeTag "notify_reminders" ].
Proof.
  destruct (toggle_on_then_off ClientSamples.ios_app ClientSamples.sdk_broken
              "reminders" (mounted NotificationContext.mounted) eq_refl)
    as [Hflags Hcalls].
  split; [|exact Hcalls].
  cbv zeta. rewrite Hflags. apply lookup_insert_eq.
Defined.

(** X29.  Once the permission is denied, "Enable Notifications" never asks the
    SDK again: it shows the alert that points to the device settings and
    leaves the provider's state alone. *)
Theorem enable_when_denied_only_alerts
    (cfg : NotificationContext.Config) (sdk : NotificationContext.SDK) (s : State) :
  NotificationContext.permissionDenied (context s) = true ->
  handleEnableNotifications cfg sdk s
    = (Normal tt,
       {| context := context s; categories := categories s;
          alerts := (alerts s ++
                     [ {| alert_title := "Notifications Disabled";
                          alert_message :=
                            "To receive notifications, please enable them in your device settings.";
                          alert_buttons := [ ("Cancel", Some "cancel");
                                             ("Open Settings", None) ] |} ])%list;
          linking := linking s |}).
Proof. intros Hdenied. run. rewrite Hdenied. reflexivity. Qed.

(** X30.  The user is asked once.  Off the web, when the first press is answered
    with a refusal, the permission is marked denied; the second press makes
    no further SDK call and shows the settings alert instead. *)
Theorem refusal_is_asked_once
    (cfg : NotificationContext.Config) (sdk : NotificationContext.SDK) (s : State) :
  NotificationContext.isWeb cfg = false ->
  NotificationContext.permissionDenied (context s) = false ->
  NotificationContext.answer_bool sdk (NotificationContext.sdk_calls (context s))
    (NotificationContext.Notifications_requestPermission true) = Normal false ->
  let s1 := (handleEnableNotifications cfg sdk s).2 in
  let s2 := (handleEnableNotifications cfg sdk s1).2 in
  NotificationContext.permissionDenied (context s1) = true /\
  NotificationContext.hasPermission (context s1) = false /\
  alerts s1 = alerts s /\
  NotificationContext.sdk_calls (context s1)
    = (NotificationContext.sdk_calls (context s) ++
       [NotificationContext.Notifications_requestPermission true])%list /\
  context s2 = context s1 /\
  length (alerts s2) = S (length (alerts s)).
Proof.
  intros Hweb Hdenied Hrefused s1 s2. subst s2 s1.
  run. rewrite Hdenied. cbn. rewrite Hweb. cbn. rewrite Hrefused. cbn.
  repeat split. rewrite length_app. cbn. lia.
Qed.

Lemma refusal_is_asked_once_witness :
  let s1 := (handleEnableNotifications ClientSamples.ios_app ClientSamples.sdk_refusing
               (mounted NotificationContext.mounted)).2 in
  let s2 := (handleEnableNotifications ClientSamples.ios_app ClientSamples.sdk_refusing
               s1).2 in
  NotificationContext.permissionDenied (context s1) = true /\
  context s2 = context s1 /\
  length (alerts s2) = 1%nat.
Proof.
  destruct (refusal_is_asked_once ClientSamples.ios_app ClientSamples.sdk_refusing
              (mounted NotificationContext.mounted) eq_refl eq_refl eq_refl)
    as (Hdenied & _ & _ & _ & Hsame & Halerts).
  exact (conj Hdenied (conj Hsame Halerts)).
Defined.

Lemma enable_when_denied_only_alerts_witness :
  let s1 := (handleEnableNotifications ClientSamples.ios_app ClientSamples.sdk_refusing
               (mounted NotificationContext.mounted)).2 in
  (handleEnableNotifications ClientSamples.ios_app ClientSamples.sdk_granting s1).1
    = Normal tt /\
  context (handleEnableNotifications ClientSamples.ios_app ClientSamples.sdk_granting s1).2
    = context s1.
Proof.
  cbv zeta.
  rewrite (enable_when_denied_only_alerts ClientSamples.ios_app ClientSamples.sdk_granting
             (handleEnableNotifications ClientSamples.ios_app ClientSamples.sdk_refusing
                (mounted NotificationContext.mounted)).2 eq_refl).
  split; reflexivity.
Defined.

End PreferencesScreenSpec.
